(** * edgar13f: the filing resolution and retrieval pipeline of [fetch.py]

    A shallow embedding of [src/edgar13f/fetch.py] (with the helpers
    [polite_sleep] and [sec_headers] of [src/edgar13f/utils.py], and [as_int]
    of [src/edgar13f/parse_13f.py]), the properties of it that the
    specification states, and further properties that the code shows.

    Conventions of the embedding.
    - A Python [str] is a [string]; the text handled here (identifiers,
      accession tokens, file names, URLs) is ASCII, and [lower] leaves every
      character outside [A-Z] unchanged.
    - Values decoded from JSON, and the dictionaries and lists the program
      builds itself, are terms of [value].
    - A duration in seconds (a Python float) is a number of milliseconds
      in [Z]: [1.5] is [1500], [10.0] is [10000].
    - A call that can raise returns a [result]; a call that talks to the
      network or sleeps also threads the [World]. *)

From Stdlib Require Import String Ascii List ZArith Lia Bool Arith DecimalString.
From Stdlib Require DecimalZ DecimalPos DecimalFacts.
Import ListNotations.
Open Scope string_scope.
Set Warnings "-register-all".

(* ================================================================= *)
(** ** Python builtins the program uses *)

Module Py.

Definition is_upper (c : ascii) : bool :=
  (65 <=? nat_of_ascii c)%nat && (nat_of_ascii c <=? 90)%nat.

Definition lower_char (c : ascii) : ascii :=
  if is_upper c then ascii_of_nat (nat_of_ascii c + 32) else c.

(** [s.lower()] *)
Fixpoint lower (s : string) : string :=
  match s with
  | EmptyString => EmptyString
  | String c s' => String (lower_char c) (lower s')
  end.

(** Some character of [s] is one of [A-Z]. *)
Fixpoint has_upper (s : string) : bool :=
  match s with
  | EmptyString => false
  | String c s' => is_upper c || has_upper s'
  end.

(** [s.startswith(p)] *)
Fixpoint startswith (s p : string) : bool :=
  match p, s with
  | EmptyString, _ => true
  | String _ _, EmptyString => false
  | String a p', String b s' => Ascii.eqb a b && startswith s' p'
  end.

(** [s[n:]] and [s[:n]] for a non-negative [n] *)
Fixpoint drop (n : nat) (s : string) : string :=
  match n, s with
  | O, _ => s
  | S _, EmptyString => EmptyString
  | S n', String _ s' => drop n' s'
  end.

Fixpoint take (n : nat) (s : string) : string :=
  match n, s with
  | O, _ => EmptyString
  | S _, EmptyString => EmptyString
  | S n', String c s' => String c (take n' s')
  end.

(** [s[i:j]] for [0 <= i <= j] *)
Definition slice (i j : nat) (s : string) : string := take (j - i) (drop i s).

(** [s.endswith(suffix)] *)
Definition endswith (s suffix : string) : bool :=
  (String.length suffix <=? String.length s)%nat
  && String.eqb (drop (String.length s - String.length suffix) s) suffix.

(** [sub in s] *)
Fixpoint contains (s sub : string) : bool :=
  startswith s sub
  || match s with
     | EmptyString => false
     | String _ s' => contains s' sub
     end.

(** [s.split(sep)] for a separator of one character: never the empty list. *)
Fixpoint split (sep : ascii) (s : string) : list string :=
  match s with
  | EmptyString => [EmptyString]
  | String c s' =>
      if Ascii.eqb c sep then EmptyString :: split sep s'
      else match split sep s' with
           | h :: t => String c h :: t
           | [] => [String c EmptyString]
           end
  end.

(** [s.replace(old, new)] for an [old] of one character *)
Fixpoint replace (old : ascii) (new : string) (s : string) : string :=
  match s with
  | EmptyString => EmptyString
  | String c s' =>
      if Ascii.eqb c old then new ++ replace old new s'
      else String c (replace old new s')
  end.

Fixpoint zeros (n : nat) : string :=
  match n with
  | O => EmptyString
  | S n' => String "0" (zeros n')
  end.

(** [s.zfill(width)]: a string at least [width] long is returned as it is;
    otherwise zeros are inserted on the left, after a leading sign. *)
Definition zfill (width : nat) (s : string) : string :=
  if (width <=? String.length s)%nat then s
  else
    let fill := zeros (width - String.length s) in
    match s with
    | String c rest =>
        if Ascii.eqb c "+" || Ascii.eqb c "-" then String c (fill ++ rest)
        else fill ++ s
    | EmptyString => fill
    end.

(** White space as [int] and [str.strip] see it in ASCII. *)
Definition is_space (c : ascii) : bool :=
  let n := nat_of_ascii c in
  ((9 <=? n) && (n <=? 13) || (28 <=? n) && (n <=? 32))%nat.

Fixpoint lstrip (s : string) : string :=
  match s with
  | String c s' => if is_space c then lstrip s' else s
  | EmptyString => EmptyString
  end.

Fixpoint rstrip (s : string) : string :=
  match s with
  | EmptyString => EmptyString
  | String c s' =>
      match rstrip s' with
      | EmptyString => if is_space c then EmptyString else String c EmptyString
      | r => String c r
      end
  end.

Definition strip (s : string) : string := rstrip (lstrip s).

Definition digit_val (c : ascii) : option Z :=
  let n := nat_of_ascii c in
  if ((48 <=? n) && (n <=? 57))%nat then Some (Z.of_nat (n - 48)) else None.

(** Decimal digits, single underscores allowed between two digits. *)
Fixpoint digits (s : string) (acc : Z) (after_digit : bool) : option Z :=
  match s with
  | EmptyString => if after_digit then Some acc else None
  | String c s' =>
      if Ascii.eqb c "_" then
        if after_digit then digits s' acc false else None
      else
        match digit_val c with
        | Some d => digits s' (10 * acc + d) true
        | None => None
        end
  end.

(** White space as [int] skips it around the literal of an ASCII string:
    the C [isspace], without the separators 0x1C-0x1F that [str.strip]
    removes. *)
Definition is_c_space (c : ascii) : bool :=
  let n := nat_of_ascii c in
  ((9 <=? n) && (n <=? 13) || (n =? 32))%nat.

Fixpoint lstrip_c (s : string) : string :=
  match s with
  | String c s' => if is_c_space c then lstrip_c s' else s
  | EmptyString => EmptyString
  end.

Fixpoint rstrip_c (s : string) : string :=
  match s with
  | EmptyString => EmptyString
  | String c s' =>
      match rstrip_c s' with
      | EmptyString => if is_c_space c then EmptyString else String c EmptyString
      | r => String c r
      end
  end.

(** The number of decimal digits in [s]. *)
Fixpoint ndigits (s : string) : nat :=
  match s with
  | EmptyString => O
  | String c s' =>
      match digit_val c with
      | Some _ => S (ndigits s')
      | None => ndigits s'
      end
  end.

(** [sys.get_int_max_str_digits()], at its default. *)
Definition max_str_digits : nat := 4300.

(** [int(s)] in base 10; [None] stands for [ValueError]: white space around
    the literal, an optional sign, digits with single underscores between
    them, and not more digits than the interpreter converts. *)
Definition int (s : string) : option Z :=
  match rstrip_c (lstrip_c s) with
  | String c rest =>
      let body :=
        if Ascii.eqb c "-" || Ascii.eqb c "+" then rest else String c rest in
      match digits body 0 false with
      | Some v =>
          if (max_str_digits <? ndigits body)%nat then None
          else Some (if Ascii.eqb c "-" then (- v)%Z else v)
      | None => None
      end
  | EmptyString => None
  end.

(** [str(n)] of an integer. The interpreter refuses to print more than
    [max_str_digits] digits; the program prints only integers that [int]
    returned, which have fewer. *)
Definition str (n : Z) : string := NilZero.string_of_int (Z.to_int n).

(** [x in xs] for strings *)
Definition mem (x : string) (xs : list string) : bool :=
  existsb (String.eqb x) xs.

End Py.

(* ================================================================= *)
(** ** Values, exceptions and results *)

(** What [json.loads] builds, and what the program builds of the same shape.
    The entries of a [VDict] are the items of the dict, in its order, and
    their keys are distinct. *)
Inductive value : Type :=
| VNone
| VBool (b : bool)
| VNum (literal : string)
| VStr (s : string)
| VList (items : list value)
| VDict (entries : list (string * value)).

(** What [requests.get] and [Response.raise_for_status] raise: subclasses of
    [requests.RequestException]. *)
Inductive RequestException : Type :=
| Timeout
| ConnectionError
| StatusError (status_code : Z).

(** The exceptions of a run. [GetFailed], [ListingFailed] and [TableFailed]
    are the three places that raise the module's own [HTTPError]; their
    arguments are what the message is formatted from. *)
Inductive exn : Type :=
| RequestExc (e : RequestException)
| GetFailed (url : string) (retries : nat) (last_exc : option RequestException)
| ListingFailed (cik_dir accession_nodash : string)
| TableFailed (accession : string) (last_err : option exn)
| JSONDecodeError
| ParserError
| AttributeError
| TypeError
| ValueError.

Inductive result (A : Type) : Type :=
| Ok (a : A)
| Raise (e : exn).
Arguments Ok {A} a.
Arguments Raise {A} e.

Definition bind {A B} (r : result A) (k : A -> result B) : result B :=
  match r with
  | Ok a => k a
  | Raise e => Raise e
  end.

Notation "x <- r ;; k" := (bind r (fun x => k))
  (at level 61, r at next level, right associativity).

(** [[f(x) for x in xs]] where [f] can raise *)
Fixpoint traverse {A B} (f : A -> result B) (xs : list A) : result (list B) :=
  match xs with
  | [] => Ok []
  | x :: xs' => y <- f x ;; ys <- traverse f xs' ;; Ok (y :: ys)
  end.

Fixpoint lookup (k : string) (entries : list (string * value)) : option value :=
  match entries with
  | [] => None
  | (k', v) :: rest => if String.eqb k k' then Some v else lookup k rest
  end.

(** [d.get(key, default)]: only a dict has [get]. *)
Definition get (d : value) (key : string) (default : value) : result value :=
  match d with
  | VDict entries =>
      Ok (match lookup key entries with Some v => v | None => default end)
  | _ => Raise AttributeError
  end.

Fixpoint chars (s : string) : list value :=
  match s with
  | EmptyString => []
  | String c s' => VStr (String c EmptyString) :: chars s'
  end.

(** What [for x in v] iterates over: the items of a list, the keys of a dict,
    the characters of a string; anything else is not iterable. *)
Definition iter (v : value) : result (list value) :=
  match v with
  | VList items => Ok items
  | VDict entries => Ok (map (fun kv => VStr (fst kv)) entries)
  | VStr s => Ok (chars s)
  | _ => Raise TypeError
  end.

(* ================================================================= *)
(** ** [pad_cik] *)

Definition pad_cik (cik : string) : string := Py.zfill 10 cik.

(* ================================================================= *)
(** ** [latest_13f_accession] (the Filing Locator) *)

(** The dict [{"accession": acc, "filingDate": dt}]. *)
Definition filing (acc dt : value) : value :=
  VDict [("accession", acc); ("filingDate", dt)].

(** [zip(forms, accs, dates)]: stops with the shortest. *)
Fixpoint zip3 (forms accs dates : list value) : list (value * value * value) :=
  match forms, accs, dates with
  | f :: forms', a :: accs', d :: dates' => (f, a, d) :: zip3 forms' accs' dates'
  | _, _, _ => []
  end.

(** [form != "13F-HR"] *)
Definition is_13f_hr (form : value) : bool :=
  match form with
  | VStr s => String.eqb s "13F-HR"
  | _ => false
  end.

(** [filing_month and not dt.startswith(filing_month)]: an absent or empty
    filter skips nothing and does not look at [dt]. *)
Definition skipped_by_month (filing_month : option string) (dt : value) : result bool :=
  match filing_month with
  | None => Ok false
  | Some EmptyString => Ok false
  | Some m =>
      match dt with
      | VStr s => Ok (negb (Py.startswith s m))
      | _ => Raise AttributeError
      end
  end.

(** The loop over the zipped entries. *)
Fixpoint scan_13f (filing_month : option string)
    (entries : list (value * value * value)) : result (option value) :=
  match entries with
  | [] => Ok None
  | (form, acc, dt) :: rest =>
      if negb (is_13f_hr form) then scan_13f filing_month rest
      else
        skip <- skipped_by_month filing_month dt ;;
        if skip then scan_13f filing_month rest
        else Ok (Some (filing acc dt))
  end.

Definition latest_13f_accession (submissions : value) (filing_month : option string)
  : result (option value) :=
  filings <- get submissions "filings" (VDict []) ;;
  recent <- get filings "recent" (VDict []) ;;
  forms <- get recent "form" (VList []) ;;
  accs <- get recent "accessionNumber" (VList []) ;;
  dates <- get recent "filingDate" (VList []) ;;
  fs <- iter forms ;;
  acs <- iter accs ;;
  ds <- iter dates ;;
  scan_13f filing_month (zip3 fs acs ds).

(** A filing history with the three parallel arrays given as strings. *)
Definition history (forms accs dates : list string) : value :=
  VDict [("filings",
          VDict [("recent",
                  VDict [("form", VList (map VStr forms));
                         ("accessionNumber", VList (map VStr accs));
                         ("filingDate", VList (map VStr dates))])])].

(* ================================================================= *)
(** ** [find_information_table_filename] (the Document Selector) *)

(** [n.endswith(".xml") and ("informationtable" in n or "infotable" in n or
    "form13finfo" in n)] *)
Definition is_canonical (n : string) : bool :=
  Py.endswith n ".xml"
  && (Py.contains n "informationtable" || Py.contains n "infotable"
      || Py.contains n "form13finfo").

(** [n.endswith(".xml") and n != "primary_doc.xml"] *)
Definition is_other_xml (n : string) : bool :=
  Py.endswith n ".xml" && negb (String.eqb n "primary_doc.xml").

(** [n == "primary_doc.xml"] *)
Definition is_primary (n : string) : bool := String.eqb n "primary_doc.xml".

(** [v.lower()]: only a string has [lower]. *)
Definition lower_of (v : value) : result string :=
  match v with
  | VStr s => Ok (Py.lower s)
  | _ => Raise AttributeError
  end.

(** [[f.get("name", "").lower() for f in listing.get("files", [])]] *)
Definition lowered_names (listing : value) : result (list string) :=
  fl <- get listing "files" (VList []) ;;
  fs <- iter fl ;;
  traverse (fun f => n <- get f "name" (VStr "") ;; lower_of n) fs.

(** The three loops, each returning at its first hit. *)
Definition select (files : list string) : option string :=
  match find is_canonical files with
  | Some n => Some n
  | None =>
      match find is_other_xml files with
      | Some n => Some n
      | None => find is_primary files
      end
  end.

Definition find_information_table_filename (listing : value) : result (option string) :=
  files <- lowered_names listing ;;
  Ok (select files).

(** The listing dict [{"files": [{"name": n} ...]}] of the given names. *)
Definition listing_of (names : list value) : value :=
  VDict [("files", VList (map (fun n => VDict [("name", n)]) names))].

Definition listing_of_names (names : list string) : value :=
  listing_of (map VStr names).

(* ================================================================= *)
(** ** The network and the clock *)

(** [requests.Response]: the status and the body. *)
Record Response : Type := mkResponse { status_code : Z; text : string }.

(** What one [requests.get] does: it returns a response or it raises. *)
Inductive Outcome : Type :=
| Responded (resp : Response)
| Failed (e : RequestException).

(** What a run does to the outside: the requests it sends, with the
    [User-Agent] header they carry, and the [time.sleep] calls it makes. *)
Inductive Event : Type :=
| Get (url : string) (user_agent : string)
| Sleep (ms : Z).

(** [served] counts the requests sent so far; [trace] is in time order. *)
Record World : Type := mkWorld { served : nat; trace : list Event }.

Definition DEFAULT_UA : string := "JB-13F-Snapshot/0.1 (contact: you@example.com)".

(** [sec_headers(user_agent)["User-Agent"]]: [user_agent or DEFAULT_UA] *)
Definition sec_headers (user_agent : option string) : string :=
  match user_agent with
  | None => DEFAULT_UA
  | Some EmptyString => DEFAULT_UA
  | Some ua => ua
  end.

(** [time.sleep(seconds)] *)
Definition sleep (ms : Z) (w : World) : World :=
  mkWorld (served w) (trace w ++ [Sleep ms]).

(** [polite_sleep(seconds)] of [utils.py] *)
Definition polite_sleep (ms : Z) (w : World) : World :=
  if (0 <? ms)%Z then sleep ms w else w.

(** [resp.raise_for_status()]: 4xx and 5xx raise [requests.HTTPError]. *)
Definition raise_for_status (resp : Response) : option RequestException :=
  if ((400 <=? status_code resp) && (status_code resp <? 600))%Z
  then Some (StatusError (status_code resp))
  else None.

(** [resp.status_code in (429, 503)] *)
Definition is_throttled (resp : Response) : bool :=
  ((status_code resp =? 429) || (status_code resp =? 503))%Z.

(** The world once a request for [url] has left. *)
Definition sent (url : string) (user_agent : option string) (w : World) : World :=
  mkWorld (S (served w)) (trace w ++ [Get url (sec_headers user_agent)]).

Definition default_retries : nat := 3.
Definition default_sleep_s : Z := 500.

Definition is_sleep (e : Event) : bool :=
  match e with Sleep _ => true | Get _ _ => false end.

Definition urls_of (t : list Event) : list string :=
  flat_map (fun e => match e with Get u _ => [u] | Sleep _ => [] end) t.

Definition world0 : World := mkWorld 0 [].

(* ================================================================= *)
(** ** The pipeline *)

Section Pipeline.

(** The remote service: what the [n]-th request of the run gets when it
    asks for [url]. *)
Variable srv : nat -> string -> Outcome.

(** [Response.json()] on a body; [None] when it raises. *)
Variable json_loads : string -> option value.

(** [[a["href"] for a in BeautifulSoup(html, "lxml").find_all("a", href=True)]];
    [None] when the parser raises. *)
Variable soup_hrefs : string -> option (list string).

(** [requests.get(url, headers=sec_headers(user_agent), timeout=timeout)] *)
Definition requests_get (url : string) (user_agent : option string) (w : World)
  : Outcome * World :=
  (srv (served w) url, sent url user_agent w).

(** *** [http_get] (the Transport) *)

(** The [for attempt in range(1, retries + 1)] loop, from the attempts that
    are left, and the [raise] that follows it. *)
Fixpoint http_get_loop (url : string) (retries : nat) (sleep_s : Z)
    (user_agent : option string) (attempts : list nat)
    (last_exc : option RequestException) (w : World) : result Response * World :=
  match attempts with
  | [] => (Raise (GetFailed url retries last_exc), w)
  | attempt :: rest =>
      let except (e : RequestException) (w1 : World) :=
        if (attempt =? retries)%nat
        then (Raise (GetFailed url retries (Some e)), w1)
        else http_get_loop url retries sleep_s user_agent rest (Some e)
               (sleep (1000 * Z.of_nat attempt) w1) in
      match requests_get url user_agent w with
      | (Responded resp, w1) =>
          if is_throttled resp then
            http_get_loop url retries sleep_s user_agent rest last_exc
              (sleep (Z.min 10000 (1500 * Z.of_nat attempt)) w1)
          else
            match raise_for_status resp with
            | Some e => except e w1
            | None => (Ok resp, polite_sleep sleep_s w1)
            end
      | (Failed e, w1) => except e w1
      end
  end.

Definition http_get (url : string) (retries : nat) (sleep_s : Z)
    (user_agent : option string) (w : World) : result Response * World :=
  http_get_loop url retries sleep_s user_agent (seq 1 retries) None w.

(** [http_get(url, user_agent=user_agent)], as every caller writes it. *)
Definition fetch (url : string) (user_agent : option string) (w : World)
  : result Response * World :=
  http_get url default_retries default_sleep_s user_agent w.

(** *** [index_listing_for_accession] (the Directory Resolver) *)

(** The four URLs, as the f-strings lay them out. *)
Definition json_url (cik_dir nd : string) : string :=
  "https://sec.gov/Archives/edgar/data/" ++ cik_dir ++ "/" ++ nd ++ "/index.json".

Definition index_html_url (cik_dir nd : string) : string :=
  "https://sec.gov/Archives/edgar/data/" ++ cik_dir ++ "/" ++ nd ++ "/"
  ++ Py.take 10 nd ++ "-" ++ Py.slice 10 12 nd ++ "-" ++ Py.drop 12 nd
  ++ "-index.html".

Definition directory_url (cik_dir nd : string) : string :=
  "https://sec.gov/Archives/edgar/data/" ++ cik_dir ++ "/" ++ nd ++ "/".

Definition html_candidates (cik_dir nd : string) : list string :=
  [index_html_url cik_dir nd; directory_url cik_dir nd].

(** [{"files": [{"name": it.get("name", "")} for it in items]}] from the
    decoded index. *)
Definition listing_of_index (j : value) : result value :=
  directory <- get j "directory" (VDict []) ;;
  items <- get directory "item" (VList []) ;;
  its <- iter items ;;
  names <- traverse (fun it => get it "name" (VStr "")) its ;;
  Ok (listing_of names).

Definition response_json (resp : Response) : result value :=
  match json_loads (text resp) with
  | Some j => Ok j
  | None => Raise JSONDecodeError
  end.

(** The body of the first [try]. *)
Definition json_listing (cik_dir nd : string) (user_agent : option string)
    (w : World) : result value * World :=
  match fetch (json_url cik_dir nd) user_agent w with
  | (Ok resp, w1) => (j <- response_json resp ;; listing_of_index j, w1)
  | (Raise e, w1) => (Raise e, w1)
  end.

(** [a["href"].split("/")[-1].split("?")[0]] *)
Definition link_name (href : string) : string :=
  hd EmptyString (Py.split "?" (last (Py.split "/" href) EmptyString)).

(** The negation of [not name or name in (".", "..")]. *)
Definition kept (name : string) : bool :=
  negb (String.eqb name EmptyString) && negb (Py.mem name ["."; ".."]).

(** The [seen]/[uniq] loop: the first occurrence of every name, in order. *)
Fixpoint uniq (seen : list string) (names : list string) : list string :=
  match names with
  | [] => []
  | n :: rest =>
      if Py.mem n seen then uniq seen rest else n :: uniq (n :: seen) rest
  end.

(** The body of the [try] for one HTML page: [Ok (Some l)] is its [return],
    [Ok None] is a page without files. *)
Definition html_listing (url : string) (user_agent : option string) (w : World)
  : result (option value) * World :=
  match fetch url user_agent w with
  | (Ok resp, w1) =>
      (match soup_hrefs (text resp) with
       | None => Raise ParserError
       | Some hrefs =>
           match filter kept (map link_name hrefs) with
           | [] => Ok None
           | files => Ok (Some (listing_of_names (uniq [] files)))
           end
       end, w1)
  | (Raise e, w1) => (Raise e, w1)
  end.

(** The [for url in candidates] loop and the [raise] that follows it. *)
Fixpoint html_fallback (cik_dir nd : string) (user_agent : option string)
    (urls : list string) (w : World) : result value * World :=
  match urls with
  | [] => (Raise (ListingFailed cik_dir nd), w)
  | url :: rest =>
      match html_listing url user_agent w with
      | (Ok (Some listing), w1) => (Ok listing, w1)
      | (Ok None, w1) => html_fallback cik_dir nd user_agent rest w1
      | (Raise _, w1) => html_fallback cik_dir nd user_agent rest w1
      end
  end.

Definition index_listing_for_accession (cik_dir accession_nodash : string)
    (user_agent : option string) (w : World) : result value * World :=
  match json_listing cik_dir accession_nodash user_agent w with
  | (Ok listing, w1) => (Ok listing, w1)
  | (Raise _, w1) =>
      html_fallback cik_dir accession_nodash user_agent
        (html_candidates cik_dir accession_nodash) w1
  end.

(** *** [fetch_information_table_xml] (the Retrieval Orchestrator) *)

(** The candidate list: [int(cik)] is outside the [try], so a [cik] that is
    not a number raises; the prefix is inside it. *)
Definition candidates_of (cik accession : string) : result (list (string * string)) :=
  let nodash := Py.replace "-" EmptyString accession in
  match Py.int cik with
  | None => Raise ValueError
  | Some n =>
      let candidates := [(Py.str n, nodash)] in
      match Py.int (hd EmptyString (Py.split "-" accession)) with
      | Some p =>
          let prefix_cik := Py.str p in
          if negb (Py.mem prefix_cik (map fst candidates))
          then Ok (candidates ++ [(prefix_cik, nodash)])%list
          else Ok candidates
      | None => Ok candidates
      end
  end.

Definition document_url (cik_dir nd fname : string) : string :=
  "https://sec.gov/Archives/edgar/data/" ++ cik_dir ++ "/" ++ nd ++ "/" ++ fname.

(** The body of the [try] for one candidate: [Ok (Some text)] is its
    [return], [Ok None] the [continue] of [if not fname]. *)
Definition try_candidate (cik_dir nd : string) (user_agent : option string)
    (w : World) : result (option string) * World :=
  match index_listing_for_accession cik_dir nd user_agent w with
  | (Raise e, w1) => (Raise e, w1)
  | (Ok listing, w1) =>
      match find_information_table_filename listing with
      | Raise e => (Raise e, w1)
      | Ok None => (Ok None, w1)
      | Ok (Some EmptyString) => (Ok None, w1)
      | Ok (Some fname) =>
          match fetch (document_url cik_dir nd fname) user_agent w1 with
          | (Ok resp, w2) => (Ok (Some (text resp)), w2)
          | (Raise e, w2) => (Raise e, w2)
          end
      end
  end.

(** The [for cik_dir, nd in candidates] loop and the [raise] after it. *)
Fixpoint try_candidates (accession : string) (user_agent : option string)
    (candidates : list (string * string)) (last_err : option exn) (w : World)
  : result string * World :=
  match candidates with
  | [] => (Raise (TableFailed accession last_err), w)
  | (cik_dir, nd) :: rest =>
      match try_candidate cik_dir nd user_agent w with
      | (Ok (Some body), w1) => (Ok body, w1)
      | (Ok None, w1) => try_candidates accession user_agent rest last_err w1
      | (Raise e, w1) => try_candidates accession user_agent rest (Some e) w1
      end
  end.

Definition fetch_information_table_xml (cik accession : string)
    (user_agent : option string) (w : World) : result string * World :=
  match candidates_of cik accession with
  | Raise e => (Raise e, w)
  | Ok candidates => try_candidates accession user_agent candidates None w
  end.

End Pipeline.

(* ================================================================= *)
(** ** Vocabulary of the statements *)

(** The filing history of the end-to-end scenario. *)
Definition scenario : value :=
  history ["10-K"; "13F-HR"; "13F-HR"] ["A"; "B"; "C"]
          ["2024-01-10"; "2024-02-14"; "2023-11-10"].

(** The test the locator's loop makes on an entry whose form and date are
    strings: the form is 13F-HR and the date starts with the period, when one
    is asked for. *)
Definition matching (month : option string) (form dt : string) : bool :=
  String.eqb form "13F-HR"
  && match month with
     | None => true
     | Some EmptyString => true
     | Some m => Py.startswith dt m
     end.

(** The selector's criteria in the words of the specification, on a name in
    lower case, to be compared with the tests [is_canonical] and
    [is_other_xml] of the code: an [.xml] file, one whose name contains
    [informationtable], [infotable] or [form13finfo], one that is not named
    [primary_doc.xml]. *)
Definition spec_xml (n : string) : Prop := exists a, n = a ++ ".xml".

Definition spec_names_table (n : string) : Prop :=
  exists a b,
    n = a ++ "informationtable" ++ b \/ n = a ++ "infotable" ++ b
    \/ n = a ++ "form13finfo" ++ b.

Definition spec_canonical (n : string) : Prop := spec_xml n /\ spec_names_table n.

Definition spec_other_xml (n : string) : Prop :=
  spec_xml n /\ n <> "primary_doc.xml".

(** A lowered name that one of the selector's three loops accepts. *)
Definition selectable (n : string) : bool :=
  is_canonical n || is_other_xml n || is_primary n.

(** The JSON index [{"directory": {"item": [{"name": n} ...]}}]. *)
Definition index_json (names : list value) : value :=
  VDict [("directory",
          VDict [("item", VList (map (fun n => VDict [("name", n)]) names))])].

(** The outcome of a strategy of the resolver: it raised, or it raised or
    found no file. *)
Definition failed {A} (r : result A) : bool :=
  match r with Raise _ => true | Ok _ => false end.

Definition without_files (r : result (option value)) : bool :=
  match r with Ok (Some _) => false | _ => true end.

Fixpoint last_char (s : string) : option ascii :=
  match s with
  | EmptyString => None
  | String c EmptyString => Some c
  | String _ s' => last_char s'
  end.

(** The number of [time.sleep] calls in a trace. *)
Definition sleeps (t : list Event) : nat := length (filter is_sleep t).

(** A service that answers the requests of a run from a script, in order,
    and with status 404 once the script is used up. *)
Definition scripted (script : list Outcome) (n : nat) (url : string) : Outcome :=
  nth n script (Responded (mkResponse 404 EmptyString)).

(** *** Example services and decoders *)

(** A 404, then the document. *)
Definition srv_404_then_ok : nat -> string -> Outcome :=
  scripted [Responded (mkResponse 404 ""); Responded (mkResponse 200 "ok")].

(** Unavailable twice, then the document. *)
Definition srv_503_503_ok : nat -> string -> Outcome :=
  scripted [Responded (mkResponse 503 ""); Responded (mkResponse 503 "");
            Responded (mkResponse 200 "ok")].

(** Three requests that time out. *)
Definition srv_timeouts : nat -> string -> Outcome :=
  scripted [Failed Timeout; Failed Timeout; Failed Timeout].

(** A service that answers every request with status 404. *)
Definition srv_absent : nat -> string -> Outcome := scripted [].

(** A service that answers every request with status 200 and the same body. *)
Definition srv_same (body : string) (_ : nat) (_ : string) : Outcome :=
  Responded (mkResponse 200 body).

(** A decoder that reads every body as the index of the given names. *)
Definition loads_index (names : list value) (_ : string) : option value :=
  Some (index_json names).

(** Decoders that raise on every body. *)
Definition loads_nothing (_ : string) : option value := None.
Definition soup_nothing (_ : string) : option (list string) := None.

(** A parser that finds no link in any page. *)
Definition soup_no_links (_ : string) : option (list string) := Some [].

(* ================================================================= *)
(** ** The rest of [fetch.py], and [as_int] of [parse_13f.py] *)

(** A decimal digit [0-9]. *)
Definition is_digit (c : ascii) : bool :=
  match Py.digit_val c with Some _ => true | None => false end.

Fixpoint all_digits (s : string) : bool :=
  match s with
  | EmptyString => true
  | String c s' => is_digit c && all_digits s'
  end.

(** The character [c] occurs in [s]. *)
Fixpoint has_char (c : ascii) (s : string) : bool :=
  match s with
  | EmptyString => false
  | String a s' => Ascii.eqb a c || has_char c s'
  end.

(** The characters [urllib.parse.quote] leaves as they are: letters, digits,
    [_.-~], and its default [safe="/"]. *)
Definition is_unreserved (c : ascii) : bool :=
  let n := nat_of_ascii c in
  ((65 <=? n) && (n <=? 90) || (97 <=? n) && (n <=? 122)
   || (48 <=? n) && (n <=? 57))%nat
  || Py.mem (String c EmptyString) ["_"; "."; "-"; "~"; "/"].

Definition hex_digit (n : nat) : ascii :=
  match String.get n "0123456789ABCDEF" with
  | Some c => c
  | None => "0"%char
  end.

(** ["%{:02X}".format(byte)] *)
Definition percent (c : ascii) : string :=
  String "%" (String (hex_digit (nat_of_ascii c / 16))
                     (String (hex_digit (nat_of_ascii c mod 16)) EmptyString)).

(** [urllib.parse.quote(name)], byte by byte over the encoded name. *)
Fixpoint quote (s : string) : string :=
  match s with
  | EmptyString => EmptyString
  | String c s' =>
      if is_unreserved c then String c (quote s') else percent c ++ quote s'
  end.

(** The longest run of digits at the start of [s], of at most [n]. *)
Fixpoint take_digits (n : nat) (s : string) : string :=
  match n, s with
  | S n', String c s' =>
      if is_digit c then String c (take_digits n' s') else EmptyString
  | _, _ => EmptyString
  end.

(** [re.search(r"CIK=(\d{1,10})", text)] and its [group(1)]: the leftmost
    [CIK=] that a digit follows, and the digits after it, ten at most. *)
Fixpoint search_cik (text : string) : option string :=
  match text with
  | EmptyString => None
  | String _ rest =>
      if Py.startswith text "CIK="
         && match Py.drop 4 text with
            | String d _ => is_digit d
            | EmptyString => false
            end
      then Some (take_digits 10 (Py.drop 4 text))
      else search_cik rest
  end.

Definition browse_url (name : string) : string :=
  "https://www.sec.gov/cgi-bin/browse-edgar?company=" ++ quote name
  ++ "&owner=exclude&action=getcompany&output=atom".

(** [resolve_cik_from_manager_name] (the Identity Resolver) *)
Definition resolve_cik_from_manager_name (srv : nat -> string -> Outcome)
    (name : string) (user_agent : option string) (w : World)
  : result (option string) * World :=
  match fetch srv (browse_url name) user_agent w with
  | (Ok resp, w1) => (Ok (search_cik (text resp)), w1)
  | (Raise e, w1) => (Raise e, w1)
  end.

Definition submissions_url (cik : string) : string :=
  "https://data.sec.gov/submissions/CIK" ++ pad_cik cik ++ ".json".

(** [load_submissions_json] *)
Definition load_submissions_json (srv : nat -> string -> Outcome)
    (json_loads : string -> option value)
    (cik : string) (user_agent : option string) (w : World)
  : result value * World :=
  match fetch srv (submissions_url cik) user_agent w with
  | (Ok resp, w1) => (response_json json_loads resp, w1)
  | (Raise e, w1) => (Raise e, w1)
  end.

(** [as_int] of [iter_info_table_rows]: [int(s.replace(",", "").strip())],
    and 0 when that raises. *)
Definition as_int (s : string) : Z :=
  match Py.int (Py.strip (Py.replace "," EmptyString s)) with
  | Some n => n
  | None => 0%Z
  end.

(** What a request makes the [except] clause of [http_get] see: the
    exception of [requests.get], or the status error of a response that is
    not throttled. *)
Definition raised (o : Outcome) : option RequestException :=
  match o with
  | Failed e => Some e
  | Responded resp => if is_throttled resp then None else raise_for_status resp
  end.

(** The trace of a call whose every attempt is throttled. *)
Definition throttled_trace (url : string) (user_agent : option string)
    (attempts : list nat) : list Event :=
  flat_map (fun attempt =>
              [Get url (sec_headers user_agent);
               Sleep (Z.min 10000 (1500 * Z.of_nat attempt))]) attempts.

(** A run from [w] to [w'] that only appends to the trace, sends at most [n]
    requests, every one of them for a URL that is [allowed], and counts
    them. *)
Definition within (allowed : string -> Prop) (n : nat) (w w' : World) : Prop :=
  exists more,
    trace w' = (trace w ++ more)%list
    /\ Forall allowed (urls_of more)
    /\ served w' = served w + length (urls_of more)
    /\ length (urls_of more) <= n.

(** The URLs of the filing archive. *)
Definition in_archive (url : string) : Prop :=
  Py.startswith url "https://sec.gov/Archives/edgar/data/" = true.

(** A parser that finds the given links in every page. *)
Definition soup_links (hrefs : list string) (_ : string) : option (list string) :=
  Some hrefs.

(** The characters a decimal literal of [int] can hold: digits, the signs,
    the underscore and the white space [int] skips. *)
Definition is_literal_char (c : ascii) : bool :=
  is_digit c || Ascii.eqb c "-" || Ascii.eqb c "+" || Ascii.eqb c "_"
  || Py.is_c_space c.

(* ================================================================= *)
(** * Properties *)

(** ** Facts about the builtins *)

Module PyFacts.
Import Py.

Lemma is_upper_lower_char (c : ascii) : is_upper (lower_char c) = false.
Proof. destruct c as [[] [] [] [] [] [] [] []]; reflexivity. Qed.

Lemma lower_char_fixed (c : ascii) : is_upper c = false -> lower_char c = c.
Proof. unfold lower_char. now intros ->. Qed.

Lemma has_upper_lower (s : string) : has_upper (lower s) = false.
Proof.
  induction s as [|c s IH]; simpl; [reflexivity|].
  now rewrite is_upper_lower_char, IH.
Qed.

Lemma lower_without_upper (s : string) : has_upper s = false -> lower s = s.
Proof.
  induction s as [|c s IH]; simpl; [reflexivity|].
  intros H. apply orb_false_iff in H as [Hc Hs].
  now rewrite (lower_char_fixed c Hc), (IH Hs).
Qed.

Lemma lower_idempotent (s : string) : lower (lower s) = lower s.
Proof. apply lower_without_upper, has_upper_lower. Qed.

Lemma length_append (s t : string) :
  String.length (s ++ t) = String.length s + String.length t.
Proof. induction s as [|c s IH]; simpl; [reflexivity | now rewrite IH]. Qed.

Lemma length_zeros (n : nat) : String.length (zeros n) = n.
Proof. induction n as [|n IH]; simpl; [reflexivity | now rewrite IH]. Qed.

Lemma zfill_long (width : nat) (s : string) :
  width <= String.length s -> zfill width s = s.
Proof.
  intros H. unfold zfill.
  now destruct (Nat.leb_spec width (String.length s)); [|lia].
Qed.

Lemma length_zfill (width : nat) (s : string) :
  String.length (zfill width s) = Nat.max width (String.length s).
Proof.
  unfold zfill.
  destruct (Nat.leb_spec width (String.length s)) as [Hle|Hlt]; [lia|].
  destruct s as [|c rest].
  - rewrite length_zeros. simpl. lia.
  - simpl String.length in *.
    destruct (Ascii.eqb c "+" || Ascii.eqb c "-"); simpl;
      rewrite length_append, length_zeros; simpl; lia.
Qed.

End PyFacts.

(* ================================================================= *)
(** ** [pad_cik] *)

(** C8, as the code has it: for every identifier string [x], zero-padding is
    idempotent, and [pad_cik x] is as long as the longer of 10 and [x]: 10
    characters for an [x] of at most 10, the length of [x] beyond that. *)
Theorem pad_cik_idempotent_and_length (x : string) :
  pad_cik (pad_cik x) = pad_cik x
  /\ String.length (pad_cik x) = Nat.max 10 (String.length x).
Proof.
  unfold pad_cik. split.
  - apply PyFacts.zfill_long. rewrite PyFacts.length_zfill. lia.
  - apply PyFacts.length_zfill.
Qed.

(** C8 as stated fails: an identifier of eleven characters is returned as it
    is, so its padded form has length 11. *)
Lemma pad_cik_length_not_always_10 :
  pad_cik "12345678901" = "12345678901"
  /\ String.length (pad_cik "12345678901") <> 10.
Proof. split; [reflexivity | vm_compute; discriminate]. Qed.

(* ================================================================= *)
(** ** The Filing Locator *)

(** C5: on the history with forms 10-K, 13F-HR, 13F-HR, accessions A, B, C
    and dates 2024-01-10, 2024-02-14, 2023-11-10, the locator returns B of
    2024-02-14 without a period, C of 2023-11-10 for the period 2023-11, and
    not-found for the period 2025-01. *)
Theorem latest_13f_accession_scenario :
  latest_13f_accession scenario None
    = Ok (Some (filing (VStr "B") (VStr "2024-02-14")))
  /\ latest_13f_accession scenario (Some "2023-11")
    = Ok (Some (filing (VStr "C") (VStr "2023-11-10")))
  /\ latest_13f_accession scenario (Some "2025-01") = Ok None.
Proof. repeat split; reflexivity. Qed.

Lemma latest_13f_accession_history (forms accs dates : list string) month :
  latest_13f_accession (history forms accs dates) month
  = scan_13f month (zip3 (map VStr forms) (map VStr accs) (map VStr dates)).
Proof. reflexivity. Qed.

Lemma zip3_firstn (n : nat) (forms accs dates : list value) :
  zip3 (firstn n forms) (firstn n accs) (firstn n dates)
  = firstn n (zip3 forms accs dates).
Proof.
  revert forms accs dates.
  induction n as [|n IH]; intros [|f forms] [|a accs] [|d dates];
    simpl; try reflexivity.
  now rewrite IH.
Qed.

Lemma length_zip3 (forms accs dates : list value) :
  length (zip3 forms accs dates)
  = Nat.min (length forms) (Nat.min (length accs) (length dates)).
Proof.
  revert accs dates.
  induction forms as [|f forms IH]; intros [|a accs] [|d dates];
    simpl; try reflexivity.
  now rewrite IH.
Qed.

(** What the scan returns, by position. *)
Lemma scan_13f_strings (month : option string) (forms accs dates : list string) :
  match scan_13f month (zip3 (map VStr forms) (map VStr accs) (map VStr dates)) with
  | Ok (Some r) =>
      exists i f a d,
        nth_error forms i = Some f /\ nth_error accs i = Some a
        /\ nth_error dates i = Some d
        /\ matching month f d = true
        /\ r = filing (VStr a) (VStr d)
        /\ forall j f' d', j < i -> nth_error forms j = Some f' ->
             nth_error dates j = Some d' -> matching month f' d' = false
  | Ok None =>
      forall i f a d,
        nth_error forms i = Some f -> nth_error accs i = Some a ->
        nth_error dates i = Some d -> matching month f d = false
  | Raise _ => False
  end.
Proof.
  revert accs dates.
  induction forms as [|f forms IH]; intros [|a accs] [|d dates]; simpl;
    try (intros [|i] ? ? ?; simpl; discriminate).
  specialize (IH accs dates).
  assert (Hskip : skipped_by_month month (VStr d)
                  = Ok (negb match month with
                             | None => true
                             | Some EmptyString => true
                             | Some m => Py.startswith d m
                             end)).
  { destruct month as [[|c m]|]; reflexivity. }
  unfold matching in *.
  destruct (String.eqb f "13F-HR") eqn:Hf; simpl.
  - rewrite Hskip. simpl.
    destruct (match month with
              | None => true
              | Some EmptyString => true
              | Some m => Py.startswith d m
              end) eqn:Hm; simpl.
    + exists 0, f, a, d. simpl. rewrite Hf, Hm.
      repeat split; try reflexivity. intros j ? ? Hj. lia.
    + destruct (scan_13f month _) as [[r|]|e]; [| |exact IH].
      * destruct IH as (i & f' & a' & d' & H1 & H2 & H3 & H4 & H5 & H6).
        exists (S i), f', a', d'. simpl. repeat split; try assumption.
        intros [|j] f'' d'' Hj; simpl.
        -- intros [= <-] [= <-]. now rewrite Hf, Hm.
        -- apply H6. lia.
      * intros [|i] f' a' d'; simpl.
        -- intros [= <-] _ [= <-]. now rewrite Hf, Hm.
        -- apply IH.
  - destruct (scan_13f month _) as [[r|]|e]; [| |exact IH].
    + destruct IH as (i & f' & a' & d' & H1 & H2 & H3 & H4 & H5 & H6).
      exists (S i), f', a', d'. simpl. repeat split; try assumption.
      intros [|j] f'' d'' Hj; simpl.
      * intros [= <-] [= <-]. now rewrite Hf.
      * apply H6. lia.
    + intros [|i] f' a' d'; simpl.
      * intros [= <-] _ [= <-]. now rewrite Hf.
      * apply IH.
Qed.

(** C10: the locator looks only at positions below the shortest of the three
    arrays: the result is that of the arrays cut there, a returned entry sits
    at a position below it, and when no entry below it matches the result is
    not-found, whatever the form array holds further on. *)
Theorem latest_13f_accession_below_shortest
    (month : option string) (forms accs dates : list string) :
  let n := Nat.min (length forms) (Nat.min (length accs) (length dates)) in
  latest_13f_accession (history forms accs dates) month
  = latest_13f_accession
      (history (firstn n forms) (firstn n accs) (firstn n dates)) month
  /\ (forall r,
        latest_13f_accession (history forms accs dates) month = Ok (Some r) ->
        exists i f a d,
          i < n /\ nth_error forms i = Some f /\ nth_error accs i = Some a
          /\ nth_error dates i = Some d /\ matching month f d = true
          /\ r = filing (VStr a) (VStr d))
  /\ ((forall i f d, i < n -> nth_error forms i = Some f ->
         nth_error dates i = Some d -> matching month f d = false) ->
      latest_13f_accession (history forms accs dates) month = Ok None).
Proof.
  intros n. rewrite !latest_13f_accession_history.
  pose proof (scan_13f_strings month forms accs dates) as Hscan.
  assert (Hlt : forall i f a d,
             nth_error forms i = Some f -> nth_error accs i = Some a ->
             nth_error dates i = Some d -> i < n).
  { intros i f a d Hf Ha Hd.
    assert (i < length forms) by (apply nth_error_Some; congruence).
    assert (i < length accs) by (apply nth_error_Some; congruence).
    assert (i < length dates) by (apply nth_error_Some; congruence).
    unfold n. lia. }
  split; [|split].
  - rewrite <- !firstn_map, zip3_firstn, firstn_all2; [reflexivity|].
    rewrite length_zip3, !length_map. reflexivity.
  - intros r Hr. rewrite Hr in Hscan.
    destruct Hscan as (i & f & a & d & Hf & Ha & Hd & Hm & -> & _).
    exists i, f, a, d. repeat split; try assumption. eapply Hlt; eassumption.
  - intros Hnone.
    destruct (scan_13f month _) as [[r|]|e]; [|reflexivity|contradiction].
    destruct Hscan as (i & f & a & d & Hf & Ha & Hd & Hm & _).
    rewrite (Hnone i f d (Hlt _ _ _ _ Hf Ha Hd) Hf Hd) in Hm. discriminate.
Qed.

(** A 13F-HR entry at position 1 of the form array, beyond the one accession
    the history has, is not returned. *)
Lemma latest_13f_accession_below_shortest_witness :
  latest_13f_accession
    (history ["10-K"; "13F-HR"] ["A"] ["2024-01-10"; "2024-02-14"]) None
  = Ok None.
Proof.
  apply (latest_13f_accession_below_shortest None
           ["10-K"; "13F-HR"] ["A"] ["2024-01-10"; "2024-02-14"]).
  intros [|i] f d Hi; simpl in *; [|lia].
  intros [= <-] [= <-]. reflexivity.
Defined.

(* ================================================================= *)
(** ** The Document Selector *)

Lemma traverse_entries (names : list value) :
  traverse (fun f => n <- get f "name" (VStr "") ;; lower_of n)
           (map (fun n => VDict [("name", n)]) names)
  = traverse lower_of names.
Proof.
  induction names as [|n names IH]; simpl; [reflexivity|].
  now rewrite IH.
Qed.

Lemma lowered_names_listing_of (names : list value) :
  lowered_names (listing_of names) = traverse lower_of names.
Proof. unfold lowered_names, listing_of. simpl. apply traverse_entries. Qed.

Lemma traverse_lower_strings (names : list string) :
  traverse lower_of (map VStr names) = Ok (map Py.lower names).
Proof.
  induction names as [|n names IH]; simpl; [reflexivity|].
  now rewrite IH.
Qed.

Lemma traverse_lower_origin (names : list value) (files : list string) :
  traverse lower_of names = Ok files ->
  forall f, In f files -> exists m, In (VStr m) names /\ f = Py.lower m.
Proof.
  revert files.
  induction names as [|v names IH]; simpl; intros files H f Hf.
  - injection H as <-. contradiction.
  - destruct v; try discriminate. simpl in H.
    destruct (traverse lower_of names) as [fs|e]; [|discriminate].
    simpl in H. injection H as <-.
    destruct Hf as [<-|Hf]; [now exists s; auto|].
    destruct (IH fs eq_refl f Hf) as (m & Hm & ->). exists m; auto.
Qed.

Lemma selector_on_names (names : list string) :
  find_information_table_filename (listing_of_names names)
  = Ok (select (map Py.lower names)).
Proof.
  unfold find_information_table_filename, listing_of_names.
  now rewrite lowered_names_listing_of, traverse_lower_strings.
Qed.

Lemma existsb_find {A} (p : A -> bool) (l : list A) :
  existsb p l = match find p l with Some _ => true | None => false end.
Proof.
  induction l as [|x l IH]; simpl; [reflexivity|].
  now destruct (p x).
Qed.

Lemma select_sound (files : list string) (r : string) :
  select files = Some r -> In r files /\ selectable r = true.
Proof.
  unfold select, selectable.
  destruct (find is_canonical files) eqn:H1.
  { intros [= <-]. apply find_some in H1 as [? ->]. auto. }
  destruct (find is_other_xml files) eqn:H2.
  { intros [= <-]. apply find_some in H2 as [? ->].
    rewrite orb_true_r. auto. }
  intros H3. apply find_some in H3 as [? ->]. rewrite !orb_true_r. auto.
Qed.

Lemma selectable_nonempty (n : string) : selectable n = true -> n <> EmptyString.
Proof. intros H ->. discriminate. Qed.

Lemma append_assoc (a b c : string) : ((a ++ b) ++ c = a ++ (b ++ c))%string.
Proof. induction a as [|x a IH]; simpl; [reflexivity|now rewrite IH]. Qed.

Lemma take_app (a b : string) : Py.take (String.length a) (a ++ b) = a.
Proof. induction a as [|x a IH]; simpl; [now destruct b|now rewrite IH]. Qed.

Lemma drop_app (a b : string) : Py.drop (String.length a) (a ++ b) = b.
Proof. induction a as [|x a IH]; simpl; [reflexivity|exact IH]. Qed.

Lemma take_drop (n : nat) (s : string) : Py.take n s ++ Py.drop n s = s.
Proof.
  revert s. induction n as [|n IH]; intros [|c s]; simpl; try reflexivity.
  now rewrite IH.
Qed.

Lemma startswith_iff (s p : string) :
  Py.startswith s p = true <-> exists b, s = p ++ b.
Proof.
  revert s. induction p as [|c p IH]; intros s.
  - split; [intros _; now exists s|now destruct s].
  - destruct s as [|x s]; simpl.
    + split; [discriminate|intros [b Hb]; discriminate].
    + rewrite andb_true_iff, Ascii.eqb_eq, IH. split.
      * intros [-> [b ->]]. now exists b.
      * intros [b [= -> ->]]. split; [reflexivity|now exists b].
Qed.

Lemma contains_iff (s sub : string) :
  Py.contains s sub = true <-> exists a b, s = a ++ sub ++ b.
Proof.
  split.
  - induction s as [|c s IH]; cbn [Py.contains]; rewrite orb_true_iff, startswith_iff.
    + intros [[b Hb]|H]; [now exists EmptyString, b|discriminate].
    + intros [[b Hb]|H]; [now exists EmptyString, b|].
      destruct (IH H) as (a & b & ->). now exists (String c a), b.
  - intros (a & b & ->). induction a as [|c a IH].
    + assert (H : Py.startswith (sub ++ b) sub = true)
        by (apply startswith_iff; now exists b).
      change ("" ++ sub ++ b) with (sub ++ b).
      destruct (sub ++ b); cbn [Py.contains]; now rewrite H.
    + change (String c a ++ sub ++ b) with (String c (a ++ sub ++ b)).
      cbn [Py.contains]. now rewrite IH, orb_true_r.
Qed.

Lemma endswith_iff (s suffix : string) :
  Py.endswith s suffix = true <-> exists a, s = a ++ suffix.
Proof.
  unfold Py.endswith. rewrite andb_true_iff, Nat.leb_le, String.eqb_eq. split.
  - intros [_ H]. exists (Py.take (String.length s - String.length suffix) s).
    pose proof (take_drop (String.length s - String.length suffix) s) as E.
    rewrite H in E. now symmetry.
  - intros [a ->]. rewrite PyFacts.length_append. split; [lia|].
    replace (String.length a + String.length suffix - String.length suffix)
      with (String.length a) by lia.
    apply drop_app.
Qed.

Lemma is_canonical_iff (n : string) : is_canonical n = true <-> spec_canonical n.
Proof.
  unfold is_canonical, spec_canonical, spec_xml, spec_names_table.
  rewrite andb_true_iff, !orb_true_iff, endswith_iff, !contains_iff.
  split.
  - intros [Hx [[(a & b & H)|(a & b & H)]|(a & b & H)]]; (split; [exact Hx|]);
      exists a, b; auto.
  - intros [Hx (a & b & [H|[H|H]])]; (split; [exact Hx|]).
    + left. left. now exists a, b.
    + left. right. now exists a, b.
    + right. now exists a, b.
Qed.

Lemma is_other_xml_iff (n : string) : is_other_xml n = true <-> spec_other_xml n.
Proof.
  unfold is_other_xml, spec_other_xml, spec_xml.
  now rewrite andb_true_iff, negb_true_iff, endswith_iff, String.eqb_neq.
Qed.

Lemma find_exists {A} (p : A -> bool) (l : list A) :
  (exists x, In x l /\ p x = true) -> exists y, find p l = Some y.
Proof.
  intros (x & Hx & Hp). destruct (find p l) as [y|] eqn:E; [now exists y|].
  rewrite (find_none _ _ E x Hx) in Hp. discriminate.
Qed.

Lemma find_absent {A} (p : A -> bool) (l : list A) :
  ~ (exists x, In x l /\ p x = true) -> find p l = None.
Proof.
  intros H. destruct (find p l) as [y|] eqn:E; [|reflexivity].
  exfalso. apply H. exists y. now apply find_some in E.
Qed.

(** C4: the selector is a function of the listing alone and obeys the
    preference order of the specification, on the names in lower case: when
    some name is an .xml name containing informationtable, infotable or
    form13finfo it returns such a name; otherwise, when some name is an .xml
    name other than primary_doc.xml, it returns such a name; otherwise
    primary_doc.xml when that is listed; otherwise not-found. What it
    returns is the lower-case form of a listed name, the name itself when
    that has no capital. It answers the three listings of the specification
    as stated, and listings that tell the tiers and the cases apart. *)
Theorem selector_preference_order :
  (forall names : list string,
      let files := map Py.lower names in
      let some_canonical := exists n, In n files /\ spec_canonical n in
      let some_other := exists n, In n files /\ spec_other_xml n in
      exists r,
        find_information_table_filename (listing_of_names names) = Ok r
        /\ (some_canonical ->
            exists f, r = Some f /\ In f files /\ spec_canonical f)
        /\ (~ some_canonical -> some_other ->
            exists f, r = Some f /\ In f files /\ spec_other_xml f)
        /\ (~ some_canonical -> ~ some_other -> In "primary_doc.xml" files ->
            r = Some "primary_doc.xml")
        /\ (~ some_canonical -> ~ some_other -> ~ In "primary_doc.xml" files ->
            r = None)
        /\ (forall f, r = Some f ->
                      exists m, In m names /\ f = Py.lower m
                                /\ Py.has_upper f = false
                                /\ (Py.has_upper m = false -> f = m)))
  /\ find_information_table_filename
       (listing_of_names ["a_informationtable.xml"; "primary_doc.xml"])
     = Ok (Some "a_informationtable.xml")
  /\ find_information_table_filename
       (listing_of_names ["primary_doc.xml"; "a_informationtable.xml"])
     = Ok (Some "a_informationtable.xml")
  /\ find_information_table_filename (listing_of_names ["primary_doc.xml"])
     = Ok (Some "primary_doc.xml")
  /\ find_information_table_filename (listing_of_names ["readme.txt"]) = Ok None
  /\ find_information_table_filename
       (listing_of_names ["other.xml"; "x_infotable.xml"])
     = Ok (Some "x_infotable.xml")
  /\ find_information_table_filename
       (listing_of_names ["other.xml"; "form13finfo_q1.xml"; "infotable.txt"])
     = Ok (Some "form13finfo_q1.xml")
  /\ find_information_table_filename
       (listing_of_names ["primary_doc.xml"; "holdings.xml"])
     = Ok (Some "holdings.xml")
  /\ find_information_table_filename
       (listing_of_names ["README.TXT"; "Primary_Doc.XML"; "X_InformationTable.XML"])
     = Ok (Some "x_informationtable.xml")
  /\ find_information_table_filename
       (listing_of_names ["Holdings.XML"; "PRIMARY_DOC.XML"])
     = Ok (Some "holdings.xml")
  /\ find_information_table_filename (listing_of_names ["infotable.xml.bak"; "xml"])
     = Ok None.
Proof.
  split; [|repeat split; reflexivity].
  intros names files some_canonical some_other. exists (select files).
  split; [apply selector_on_names|].
  assert (Hc : some_canonical <-> exists n, In n files /\ is_canonical n = true).
  { unfold some_canonical. split; intros (n & Hn & H); exists n;
      (split; [exact Hn|]); now apply is_canonical_iff. }
  assert (Ho : some_other <-> exists n, In n files /\ is_other_xml n = true).
  { unfold some_other. split; intros (n & Hn & H); exists n;
      (split; [exact Hn|]); now apply is_other_xml_iff. }
  assert (Hp : In "primary_doc.xml" files
               <-> exists n, In n files /\ is_primary n = true).
  { split.
    - intros H. now exists "primary_doc.xml".
    - intros (n & Hn & H). apply String.eqb_eq in H. now subst. }
  rewrite Hc, Ho, Hp. unfold select.
  split; [|split; [|split; [|split]]].
  - intros H. destruct (find_exists _ _ H) as [f Hf]. rewrite Hf.
    exists f. apply find_some in Hf as [Hin Hf]. rewrite <- is_canonical_iff. auto.
  - intros H1 H2. rewrite (find_absent _ _ H1).
    destruct (find_exists _ _ H2) as [f Hf]. rewrite Hf.
    exists f. apply find_some in Hf as [Hin Hf]. rewrite <- is_other_xml_iff. auto.
  - intros H1 H2 H3. rewrite (find_absent _ _ H1), (find_absent _ _ H2).
    destruct (find_exists _ _ H3) as [f Hf]. rewrite Hf.
    apply find_some in Hf as [_ Hf]. apply String.eqb_eq in Hf. now subst.
  - intros H1 H2 H3.
    now rewrite (find_absent _ _ H1), (find_absent _ _ H2), (find_absent _ _ H3).
  - intros f Hf. apply select_sound in Hf as [Hin _].
    apply in_map_iff in Hin as (m & <- & Hm). exists m.
    split; [exact Hm|]. split; [reflexivity|].
    split; [apply PyFacts.has_upper_lower|].
    intros H. now apply PyFacts.lower_without_upper.
Qed.

(** In a listing with a plain .xml file before the information table, in
    capitals, the table is what the selector returns. *)
Lemma selector_preference_order_witness :
  exists r,
    find_information_table_filename
      (listing_of_names ["Other.XML"; "X_InfoTable.xml"]) = Ok r
    /\ exists f, r = Some f
                 /\ In f (map Py.lower ["Other.XML"; "X_InfoTable.xml"])
                 /\ spec_canonical f.
Proof.
  destruct (proj1 selector_preference_order ["Other.XML"; "X_InfoTable.xml"])
    as (r & Hr & H1 & _).
  exists r. split; [exact Hr|]. apply H1.
  exists "x_infotable.xml". split; [right; now left|]. split.
  - now exists "x_infotable".
  - exists "x_", ".xml". right. now left.
Defined.

(* ================================================================= *)
(** ** The Transport *)

Section Transport.

Variable srv : nat -> string -> Outcome.
Variables (url : string) (retries : nat) (sleep_s : Z) (user_agent : option string).

Local Abbreviation loop := (http_get_loop srv url retries sleep_s user_agent).
Local Abbreviation sent := (sent url user_agent).

(** One turn of the loop. *)
Lemma http_get_loop_step (attempt : nat) (rest : list nat)
    (last_exc : option RequestException) (w : World) :
  loop (attempt :: rest) last_exc w
  = let except e :=
      if (attempt =? retries)%nat
      then (Raise (GetFailed url retries (Some e)), sent w)
      else loop rest (Some e) (sleep (1000 * Z.of_nat attempt) (sent w)) in
    match srv (served w) url with
    | Responded resp =>
        if is_throttled resp then
          loop rest last_exc
            (sleep (Z.min 10000 (1500 * Z.of_nat attempt)) (sent w))
        else
          match raise_for_status resp with
          | Some e => except e
          | None => (Ok resp, polite_sleep sleep_s (sent w))
          end
    | Failed e => except e
    end.
Proof. reflexivity. Qed.

(** A call only adds to the trace, and every request it adds is for [url]. *)
Lemma http_get_loop_trace (attempts : list nat)
    (last_exc : option RequestException) (w : World) :
  exists more,
    trace (snd (loop attempts last_exc w)) = (trace w ++ more)%list
    /\ Forall (eq url) (urls_of more).
Proof.
  revert last_exc w.
  induction attempts as [|attempt rest IH]; intros last_exc w.
  - exists []. simpl. now rewrite app_nil_r.
  - rewrite http_get_loop_step.
    assert (Hnext : forall last ms,
               exists more,
                 trace (snd (loop rest last (sleep ms (sent w))))
                 = (trace w ++ more)%list
                 /\ Forall (eq url) (urls_of more)).
    { intros last ms.
      destruct (IH last (sleep ms (sent w))) as (more & Ht & Hu).
      exists (Get url (sec_headers user_agent) :: Sleep ms :: more).
      split; [|simpl; now constructor].
      rewrite Ht. simpl. now rewrite <- !app_assoc. }
    assert (Hstop : forall e,
               exists more,
                 trace (snd (if (attempt =? retries)%nat
                             then (@Raise Response
                                     (GetFailed url retries (Some e)), sent w)
                             else loop rest (Some e)
                                    (sleep (1000 * Z.of_nat attempt) (sent w))))
                 = (trace w ++ more)%list
                 /\ Forall (eq url) (urls_of more)).
    { intros e. destruct (attempt =? retries)%nat; [|apply Hnext].
      exists [Get url (sec_headers user_agent)]. simpl.
      split; [reflexivity | now constructor]. }
    cbv zeta.
    destruct (srv (served w) url) as [resp|e]; [|apply Hstop].
    destruct (is_throttled resp); [apply Hnext|].
    destruct (raise_for_status resp) as [e|]; [apply Hstop|].
    unfold polite_sleep. destruct (0 <? sleep_s)%Z.
    + exists [Get url (sec_headers user_agent); Sleep sleep_s]. simpl.
      split; [now rewrite <- app_assoc | now constructor].
    + exists [Get url (sec_headers user_agent)]. simpl.
      split; [reflexivity | now constructor].
Qed.

(** A call with attempts left starts by sending the request. *)
Lemma http_get_loop_sends (attempt : nat) (rest : list nat)
    (last_exc : option RequestException) (w : World) :
  exists more,
    trace (snd (loop (attempt :: rest) last_exc w))
    = (trace w ++ Get url (sec_headers user_agent) :: more)%list.
Proof.
  rewrite http_get_loop_step.
  assert (Hnext : forall last ms,
             exists more,
               trace (snd (loop rest last (sleep ms (sent w))))
               = (trace w ++ Get url (sec_headers user_agent) :: more)%list).
  { intros last ms.
    destruct (http_get_loop_trace rest last (sleep ms (sent w)))
      as (more & Ht & _).
    exists (Sleep ms :: more). rewrite Ht. simpl. now rewrite <- !app_assoc. }
  cbv zeta.
  destruct (srv (served w) url) as [resp|e].
  - destruct (is_throttled resp); [apply Hnext|].
    destruct (raise_for_status resp) as [e|].
    + destruct (attempt =? retries)%nat; [now exists []|apply Hnext].
    + unfold polite_sleep. destruct (0 <? sleep_s)%Z.
      * exists [Sleep sleep_s]. simpl. now rewrite <- app_assoc.
      * now exists [].
  - destruct (attempt =? retries)%nat; [now exists []|apply Hnext].
Qed.

End Transport.

(** C1, as the code has it: a response with a 4xx or 5xx status other than
    429 and 503 is raised inside the retry loop and handled like a network
    failure. At the last attempt allowed (none left after it) the call fails
    at once with the transport error that carries the status error; at an
    earlier attempt the call sleeps attempt x 1 s and sends the request
    again. [http_get] is the loop from attempt 1 with [retries - 1] left. *)
Theorem status_error_is_retried_until_last_attempt :
  forall srv url retries sleep_s user_agent attempt k last_exc w resp,
    attempt + k = retries ->
    srv (served w) url = Responded resp ->
    (400 <= status_code resp < 600)%Z ->
    status_code resp <> 429%Z ->
    status_code resp <> 503%Z ->
    let w1 := sent url user_agent w in
    let cause := StatusError (status_code resp) in
    let run := http_get_loop srv url retries sleep_s user_agent
                 (seq attempt (S k)) last_exc w in
    (k = 0 -> run = (Raise (GetFailed url retries (Some cause)), w1))
    /\ (0 < k ->
        run = http_get_loop srv url retries sleep_s user_agent
                (seq (S attempt) k) (Some cause)
                (sleep (1000 * Z.of_nat attempt) w1)
        /\ exists more,
            trace (snd run)
            = (trace w1 ++ Sleep (1000 * Z.of_nat attempt)
                 :: Get url (sec_headers user_agent) :: more)%list).
Proof.
  intros srv url retries sleep_s ua attempt k last_exc w resp
         Hk Hsrv Hrange H429 H503 w1 cause run.
  assert (Hthr : is_throttled resp = false).
  { unfold is_throttled. apply orb_false_iff. split; now apply Z.eqb_neq. }
  assert (Hraise : raise_for_status resp = Some cause).
  { unfold raise_for_status.
    destruct (Z.leb_spec 400 (status_code resp)); [|lia].
    destruct (Z.ltb_spec (status_code resp) 600); [reflexivity|lia]. }
  assert (Hrun : run = if (attempt =? retries)%nat
                       then (Raise (GetFailed url retries (Some cause)), w1)
                       else http_get_loop srv url retries sleep_s ua
                              (seq (S attempt) k) (Some cause)
                              (sleep (1000 * Z.of_nat attempt) w1)).
  { unfold run. simpl seq. rewrite http_get_loop_step. cbv zeta.
    now rewrite Hsrv, Hthr, Hraise. }
  split.
  - intros ->. rewrite Hrun.
    destruct (Nat.eqb_spec attempt retries); [reflexivity|lia].
  - intros Hpos.
    assert (Hrun' : run = http_get_loop srv url retries sleep_s ua
                            (seq (S attempt) k) (Some cause)
                            (sleep (1000 * Z.of_nat attempt) w1)).
    { rewrite Hrun. destruct (Nat.eqb_spec attempt retries); [lia|reflexivity]. }
    split; [exact Hrun'|].
    rewrite Hrun'. destruct k as [|k]; [lia|]. simpl seq.
    destruct (http_get_loop_sends srv url retries sleep_s ua (S attempt)
                (seq (S (S attempt)) k) (Some cause)
                (sleep (1000 * Z.of_nat attempt) w1)) as (more & Hmore).
    exists more. rewrite Hmore. simpl. now rewrite <- app_assoc.
Qed.

(** A 404 at the first of three attempts: the call sleeps one second and
    asks again. *)
Lemma status_error_is_retried_until_last_attempt_witness :
  exists more,
    trace (snd (http_get srv_404_then_ok "u" 3 500 None world0))
    = ([Get "u" DEFAULT_UA; Sleep 1000; Get "u" DEFAULT_UA] ++ more)%list.
Proof.
  apply (status_error_is_retried_until_last_attempt
           srv_404_then_ok "u" 3 500 None 1 2 None world0 (mkResponse 404 ""));
    simpl; try reflexivity; lia.
Defined.

(** C1 as stated fails: the first response is a 404, and the call neither
    fails nor stops there; it sleeps, sends a second request and returns
    the body of that one. *)
Lemma status_error_does_not_fail_immediately :
  srv_404_then_ok 0 "u" = Responded (mkResponse 404 "")
  /\ http_get srv_404_then_ok "u" 3 500 None world0
     = (Ok (mkResponse 200 "ok"),
        mkWorld 2 [Get "u" DEFAULT_UA; Sleep 1000; Get "u" DEFAULT_UA; Sleep 500])
  /\ ~ (exists e, fst (http_get srv_404_then_ok "u" 3 500 None world0) = Raise e).
Proof.
  repeat split. intros [e He]. discriminate He.
Qed.

(** C6: on the responses 503, 503, 200 a call with three attempts returns
    the third response without raising, and it consumes two sleep intervals
    of the retry and back-off rule, no more: the sleeps of 1.5 s and 3 s
    between the three requests. The polite delay that follows every
    successful request ([sleep_s], when positive) is a separate rule of the
    Transport and comes after the last request; the statement gives it
    apart. On three failed requests with three attempts the call fails with
    the transport error that carries the cause of the last one. *)
Theorem backoff_success_and_exhaustion :
  forall srv url sleep_s user_agent w,
    let h := sec_headers user_agent in
    (forall r1 r2 r3,
        srv (served w) url = Responded r1 ->
        srv (S (served w)) url = Responded r2 ->
        srv (S (S (served w))) url = Responded r3 ->
        status_code r1 = 503%Z -> status_code r2 = 503%Z ->
        status_code r3 = 200%Z ->
        let w3 := mkWorld (S (S (S (served w))))
                    (trace w ++ [Get url h; Sleep 1500; Get url h;
                                 Sleep 3000; Get url h]) in
        http_get srv url 3 sleep_s user_agent w = (Ok r3, polite_sleep sleep_s w3)
        /\ sleeps (trace w3) = sleeps (trace w) + 2
        /\ sleeps (trace (polite_sleep sleep_s w3))
           = sleeps (trace w) + 2 + (if (0 <? sleep_s)%Z then 1 else 0))
    /\ (forall e1 e2 e3,
           srv (served w) url = Failed e1 ->
           srv (S (served w)) url = Failed e2 ->
           srv (S (S (served w))) url = Failed e3 ->
           http_get srv url 3 sleep_s user_agent w
           = (Raise (GetFailed url 3 (Some e3)),
              mkWorld (S (S (S (served w))))
                (trace w ++ [Get url h; Sleep 1000; Get url h;
                             Sleep 2000; Get url h]))).
Proof.
  intros srv url sleep_s ua w h. split.
  - intros r1 r2 r3 H1 H2 H3 S1 S2 S3 w3.
    assert (T1 : is_throttled r1 = true) by (unfold is_throttled; now rewrite S1).
    assert (T2 : is_throttled r2 = true) by (unfold is_throttled; now rewrite S2).
    assert (T3 : is_throttled r3 = false) by (unfold is_throttled; now rewrite S3).
    assert (R3 : raise_for_status r3 = None)
      by (unfold raise_for_status; now rewrite S3).
    split; [|split].
    + unfold http_get. simpl seq.
      rewrite http_get_loop_step. cbv zeta. rewrite H1, T1.
      rewrite http_get_loop_step. cbv zeta. simpl served. rewrite H2, T2.
      rewrite http_get_loop_step. cbv zeta. simpl served. rewrite H3, T3, R3.
      unfold w3, sleep, sent. simpl. now rewrite <- !app_assoc.
    + unfold sleeps, w3. simpl trace. rewrite filter_app, length_app. reflexivity.
    + unfold polite_sleep, sleep, sleeps, w3. destruct (0 <? sleep_s)%Z; simpl trace.
      * rewrite !filter_app, !length_app. simpl. lia.
      * rewrite filter_app, length_app. simpl. lia.
  - intros e1 e2 e3 H1 H2 H3.
    unfold http_get. simpl seq.
    rewrite http_get_loop_step. cbv zeta. rewrite H1. simpl Nat.eqb. cbv iota.
    rewrite http_get_loop_step. cbv zeta. simpl served. rewrite H2.
    simpl Nat.eqb. cbv iota.
    rewrite http_get_loop_step. cbv zeta. simpl served. rewrite H3.
    unfold sleep, sent. simpl. now rewrite <- !app_assoc.
Qed.

(** The two runs of the retry scenario, from the start of a run with the
    defaults of the callers. *)
Lemma backoff_success_and_exhaustion_witness :
  http_get srv_503_503_ok "u" 3 500 None world0
  = (Ok (mkResponse 200 "ok"),
     mkWorld 3 [Get "u" DEFAULT_UA; Sleep 1500; Get "u" DEFAULT_UA; Sleep 3000;
                Get "u" DEFAULT_UA; Sleep 500])
  /\ http_get srv_timeouts "u" 3 500 None world0
     = (Raise (GetFailed "u" 3 (Some Timeout)),
        mkWorld 3 [Get "u" DEFAULT_UA; Sleep 1000; Get "u" DEFAULT_UA; Sleep 2000;
                   Get "u" DEFAULT_UA]).
Proof.
  split.
  - apply (proj1 (backoff_success_and_exhaustion
                    srv_503_503_ok "u" 500 None world0)
             (mkResponse 503 "") (mkResponse 503 "") (mkResponse 200 "ok"));
      reflexivity.
  - apply (proj2 (backoff_success_and_exhaustion
                    srv_timeouts "u" 500 None world0)
             Timeout Timeout Timeout);
      reflexivity.
Defined.

(* ================================================================= *)
(** ** The Directory Resolver *)

Lemma last_char_append (s t : string) (c : ascii) :
  last_char t = Some c -> last_char (s ++ t) = Some c.
Proof.
  intros Ht. induction s as [|a s IH]; simpl; [exact Ht|].
  destruct (s ++ t) eqn:E; [|exact IH].
  destruct s; simpl in E; [subst t|]; discriminate.
Qed.

Lemma last_char_json_url (cik_dir nd : string) :
  last_char (json_url cik_dir nd) = Some "n"%char.
Proof. unfold json_url. now repeat apply last_char_append. Qed.

Lemma last_char_index_html_url (cik_dir nd : string) :
  last_char (index_html_url cik_dir nd) = Some "l"%char.
Proof. unfold index_html_url. now repeat apply last_char_append. Qed.

Lemma last_char_directory_url (cik_dir nd : string) :
  last_char (directory_url cik_dir nd) = Some "/"%char.
Proof. unfold directory_url. now repeat apply last_char_append. Qed.

Lemma json_url_not_html (cik_dir nd : string) :
  ~ In (json_url cik_dir nd) (html_candidates cik_dir nd).
Proof.
  pose proof (last_char_json_url cik_dir nd) as Hj.
  intros [H|[H|[]]]; rewrite <- H in Hj.
  - rewrite last_char_index_html_url in Hj. discriminate.
  - rewrite last_char_directory_url in Hj. discriminate.
Qed.

Lemma listing_of_index_shape (j listing : value) :
  listing_of_index j = Ok listing -> exists names, listing = listing_of names.
Proof.
  unfold listing_of_index. intros H.
  destruct (get j "directory" (VDict [])) as [d|]; [simpl in H|discriminate].
  destruct (get d "item" (VList [])) as [items|]; [simpl in H|discriminate].
  destruct (iter items) as [its|]; [simpl in H|discriminate].
  destruct (traverse _ its) as [names|]; [simpl in H|discriminate].
  injection H as <-. now exists names.
Qed.

Lemma traverse_names (names : list value) :
  traverse (fun it => get it "name" (VStr ""))
           (map (fun n => VDict [("name", n)]) names)
  = Ok names.
Proof.
  induction names as [|n names IH]; simpl; [reflexivity|].
  now rewrite IH.
Qed.

(** The index whose items carry exactly these names maps to their listing. *)
Lemma listing_of_index_json (names : list value) :
  listing_of_index (index_json names) = Ok (listing_of names).
Proof. unfold listing_of_index, index_json. simpl. now rewrite traverse_names. Qed.

(** C7: when the request for the JSON index succeeds and its body decodes to
    an index with a valid item list, the resolver returns the listing made of
    the items' names at once, in the world the request left: whatever was
    sent went to the JSON index, which is neither of the HTML pages. *)
Theorem json_index_success_skips_html :
  forall srv json_loads soup_hrefs cik_dir nd user_agent w resp w1 j listing,
    fetch srv (json_url cik_dir nd) user_agent w = (Ok resp, w1) ->
    json_loads (text resp) = Some j ->
    listing_of_index j = Ok listing ->
    index_listing_for_accession srv json_loads soup_hrefs cik_dir nd user_agent w
    = (Ok listing, w1)
    /\ (exists names, listing = listing_of names)
    /\ (exists more,
           trace w1 = (trace w ++ more)%list
           /\ Forall (eq (json_url cik_dir nd)) (urls_of more)
           /\ forall u, In u (html_candidates cik_dir nd) -> ~ In u (urls_of more)).
Proof.
  intros srv json_loads soup_hrefs cik_dir nd ua w resp w1 j listing Hget Hj Hl.
  split; [|split].
  - unfold index_listing_for_accession, json_listing, response_json.
    rewrite Hget, Hj. cbn [bind]. now rewrite Hl.
  - eapply listing_of_index_shape; eassumption.
  - pose proof (http_get_loop_trace srv (json_url cik_dir nd) default_retries
                  default_sleep_s ua (seq 1 default_retries) None w) as Ht.
    unfold fetch, http_get in Hget. rewrite Hget in Ht.
    destruct Ht as (more & Ht & Hurls). exists more.
    split; [exact Ht|]. split; [exact Hurls|].
    intros u Hu Hin. rewrite Forall_forall in Hurls.
    apply Hurls in Hin. subst u. now apply json_url_not_html in Hu.
Qed.

(** An index with one item: one request, for the JSON index, and the listing
    of that item. *)
Lemma json_index_success_skips_html_witness :
  index_listing_for_accession
    (srv_same "{}") (loads_index [VStr "InfoTable.xml"]) soup_nothing
    "1067983" "000095012324001234" None world0
  = (Ok (listing_of [VStr "InfoTable.xml"]),
     mkWorld 1 [Get (json_url "1067983" "000095012324001234") DEFAULT_UA;
                Sleep 500]).
Proof.
  apply (json_index_success_skips_html
           (srv_same "{}") (loads_index [VStr "InfoTable.xml"]) soup_nothing
           "1067983" "000095012324001234" None world0
           (mkResponse 200 "{}") _ (index_json [VStr "InfoTable.xml"]));
    reflexivity.
Defined.

Lemma html_fallback_two (srv : nat -> string -> Outcome)
    (soup_hrefs : string -> option (list string))
    (cik_dir nd : string) (ua : option string) (u1 u2 : string) (w : World) :
  let r1 := html_listing srv soup_hrefs u1 ua w in
  let r2 := html_listing srv soup_hrefs u2 ua (snd r1) in
  html_fallback srv soup_hrefs cik_dir nd ua [u1; u2] w
  = match fst r1 with
    | Ok (Some listing) => (Ok listing, snd r1)
    | _ => match fst r2 with
           | Ok (Some listing) => (Ok listing, snd r2)
           | _ => (Raise (ListingFailed cik_dir nd), snd r2)
           end
    end.
Proof.
  intros r1 r2. unfold r2, r1. simpl.
  destruct (html_listing srv soup_hrefs u1 ua w) as [[[l1|]|e1] w1]; simpl;
    try reflexivity;
    destruct (html_listing srv soup_hrefs u2 ua w1) as [[[l2|]|e2] w2];
    reflexivity.
Qed.

(** C2, as the code has it: the resolver fails exactly when the JSON path
    fails and each of the two HTML pages, tried in turn, fails or yields no
    file; the failure is then the lookup error. A JSON index that is read
    is returned as it is, also when it lists no file. *)
Theorem listing_fails_iff_json_fails_and_html_is_empty :
  forall srv json_loads soup_hrefs cik_dir nd user_agent w,
    let rj := json_listing srv json_loads cik_dir nd user_agent w in
    let r1 := html_listing srv soup_hrefs (index_html_url cik_dir nd)
                user_agent (snd rj) in
    let r2 := html_listing srv soup_hrefs (directory_url cik_dir nd)
                user_agent (snd r1) in
    let run := index_listing_for_accession srv json_loads soup_hrefs
                 cik_dir nd user_agent w in
    ((exists e, fst run = Raise e)
     <-> failed (fst rj) = true /\ without_files (fst r1) = true
         /\ without_files (fst r2) = true)
    /\ (forall e, fst run = Raise e -> e = ListingFailed cik_dir nd)
    /\ (forall listing, fst rj = Ok listing -> run = (Ok listing, snd rj)).
Proof.
  intros srv json_loads soup_hrefs cik_dir nd ua w rj r1 r2 run.
  assert (Hrun : run = match fst rj with
                       | Ok listing => (Ok listing, snd rj)
                       | Raise _ =>
                           match fst r1 with
                           | Ok (Some listing) => (Ok listing, snd r1)
                           | _ => match fst r2 with
                                  | Ok (Some listing) => (Ok listing, snd r2)
                                  | _ => (Raise (ListingFailed cik_dir nd), snd r2)
                                  end
                           end
                       end).
  { unfold run, r2, r1, rj, index_listing_for_accession, html_candidates.
    destruct (json_listing srv json_loads cik_dir nd ua w) as [[l|e] wj];
      simpl fst; simpl snd; [reflexivity|].
    apply html_fallback_two. }
  rewrite Hrun. clear Hrun.
  assert (Hcase : forall a b c : bool, a = true /\ b = true /\ c = true
                                       <-> a && b && c = true).
  { intros [] [] []; simpl; intuition discriminate. }
  destruct (fst rj) as [lj|ej]; [|destruct (fst r1) as [[l1|]|e1];
                                   [|destruct (fst r2) as [[l2|]|e2]
                                    |destruct (fst r2) as [[l2|]|e2]]];
    simpl; rewrite Hcase; simpl;
    (split; [split; [intros [e He]|intros H]|split; [intros e He|intros l Hl]]);
    try discriminate; try congruence; try (eexists; reflexivity).
Qed.

(** Every strategy fails (the service answers 404 throughout): the resolver
    raises. *)
Lemma listing_fails_iff_json_fails_and_html_is_empty_witness :
  exists e,
    fst (index_listing_for_accession srv_absent loads_nothing soup_nothing
           "1067983" "000095012324001234" None world0)
    = Raise e.
Proof.
  apply (proj2 (proj1 (listing_fails_iff_json_fails_and_html_is_empty
                         srv_absent loads_nothing soup_nothing
                         "1067983" "000095012324001234" None world0))).
  repeat split; reflexivity.
Defined.

(** C2 as stated fails: the JSON index is read and lists no file, and both
    HTML pages would be read and yield no file either; the resolver returns
    the empty listing, it does not raise. *)
Lemma empty_json_index_is_returned :
  fst (json_listing (srv_same "{}") (loads_index [])
         "1067983" "000095012324001234" None world0)
  = Ok (listing_of [])
  /\ fst (html_listing (srv_same "{}") soup_no_links
            (index_html_url "1067983" "000095012324001234") None world0)
     = Ok None
  /\ fst (html_listing (srv_same "{}") soup_no_links
            (directory_url "1067983" "000095012324001234") None world0)
     = Ok None
  /\ fst (index_listing_for_accession (srv_same "{}") (loads_index []) soup_no_links
            "1067983" "000095012324001234" None world0)
     = Ok (listing_of [])
  /\ ~ (exists e,
           fst (index_listing_for_accession (srv_same "{}") (loads_index [])
                  soup_no_links "1067983" "000095012324001234" None world0)
           = Raise e).
Proof.
  repeat split. intros [e He]. discriminate He.
Qed.

(* ================================================================= *)
(** ** The Retrieval Orchestrator *)

(** C3: for the investor 1067983 and the accession 0000950123-24-001234 the
    candidate list starts with (1067983, 000095012324001234) and goes on with
    the candidate of the prefix, (950123, same accession). In general the
    list starts with the investor's identifier as a number, and the candidate
    of the accession prefix follows only when the prefix is a number that
    differs from it: asked for the investor 950123, or 0000950123, the same
    accession gives one candidate. *)
Theorem candidates_order :
  candidates_of "1067983" "0000950123-24-001234"
  = Ok [("1067983", "000095012324001234"); ("950123", "000095012324001234")]
  /\ candidates_of "0000950123" "0000950123-24-001234"
     = Ok [("950123", "000095012324001234")]
  /\ forall cik accession : string,
      let nodash := Py.replace "-" "" accession in
      match Py.int cik with
      | None => candidates_of cik accession = Raise ValueError
      | Some n =>
          candidates_of cik accession
          = Ok ((Py.str n, nodash)
                  :: match Py.int (hd "" (Py.split "-" accession)) with
                     | Some p =>
                         if String.eqb (Py.str p) (Py.str n) then []
                         else [(Py.str p, nodash)]
                     | None => []
                     end)
      end.
Proof.
  split; [reflexivity|]. split; [reflexivity|].
  intros cik accession nodash. unfold candidates_of. fold nodash.
  destruct (Py.int cik) as [n|]; [|reflexivity].
  destruct (Py.int (hd "" (Py.split "-" accession))) as [p|]; [|reflexivity].
  simpl. rewrite orb_false_r.
  now destruct (String.eqb (Py.str p) (Py.str n)).
Qed.

(** C9: a file name the selector returns is the lowered form of a listed
    name; when every listed name the selector can pick has a capital letter
    the returned name is not one of the listing; and the request the
    orchestrator sends next is for the document at the lowered name. *)
Theorem selected_name_is_lowercased :
  forall (names : list value) (r : string),
    find_information_table_filename (listing_of names) = Ok (Some r) ->
    (exists m, In (VStr m) names /\ r = Py.lower m)
    /\ ((forall m, In (VStr m) names -> selectable (Py.lower m) = true ->
                   Py.has_upper m = true) ->
        ~ In (VStr r) names)
    /\ (forall srv json_loads soup_hrefs cik_dir nd user_agent w w1,
           index_listing_for_accession srv json_loads soup_hrefs
             cik_dir nd user_agent w = (Ok (listing_of names), w1) ->
           exists more,
             trace (snd (try_candidate srv json_loads soup_hrefs
                           cik_dir nd user_agent w))
             = (trace w1
                  ++ Get (document_url cik_dir nd r) (sec_headers user_agent)
                  :: more)%list).
Proof.
  intros names r Hfind.
  assert (Hsel : exists files,
             traverse lower_of names = Ok files /\ select files = Some r).
  { unfold find_information_table_filename in Hfind.
    rewrite lowered_names_listing_of in Hfind.
    destruct (traverse lower_of names) as [files|]; [|discriminate].
    simpl in Hfind. exists files. split; congruence. }
  destruct Hsel as (files & Hfiles & Hsel).
  destruct (select_sound files r Hsel) as [Hin Hok].
  destruct (traverse_lower_origin names files Hfiles r Hin) as (m & Hm & Hr).
  split; [now exists m|]. split.
  - intros Hupper Hlisted.
    assert (Hfix : Py.lower r = r)
      by (rewrite Hr; apply PyFacts.lower_idempotent).
    rewrite <- Hfix in Hok. specialize (Hupper r Hlisted Hok).
    rewrite Hr, PyFacts.has_upper_lower in Hupper. discriminate.
  - intros srv json_loads soup_hrefs cik_dir nd ua w w1 Hlist.
    unfold try_candidate. rewrite Hlist, Hfind.
    pose proof (selectable_nonempty r Hok) as Hne.
    destruct r as [|c r']; [contradiction|].
    destruct (http_get_loop_sends srv (document_url cik_dir nd (String c r'))
                default_retries default_sleep_s ua 1 [2; 3] None w1)
      as (more & Hmore).
    exists more. unfold fetch, http_get. simpl seq.
    destruct (http_get_loop _ _ _ _ _ _ _ _) as [[resp|e] w2]; exact Hmore.
Qed.

(** The listing of one name in capitals: the selector answers its lowered
    form, which is not listed, and the orchestrator asks for the document
    under that lowered name. *)
Lemma selected_name_is_lowercased_witness :
  find_information_table_filename (listing_of [VStr "INFOTABLE.XML"])
  = Ok (Some "infotable.xml")
  /\ ~ In (VStr "infotable.xml") [VStr "INFOTABLE.XML"]
  /\ (exists m, In (VStr m) [VStr "INFOTABLE.XML"] /\ "infotable.xml" = Py.lower m)
  /\ (exists more,
         trace (snd (try_candidate (srv_same "{}")
                       (loads_index [VStr "INFOTABLE.XML"]) soup_nothing
                       "1067983" "000095012324001234" None world0))
         = ([Get (json_url "1067983" "000095012324001234") DEFAULT_UA; Sleep 500]
              ++ Get "https://sec.gov/Archives/edgar/data/1067983/000095012324001234/infotable.xml"
                   DEFAULT_UA
              :: more)%list).
Proof.
  split; [reflexivity|].
  destruct (selected_name_is_lowercased [VStr "INFOTABLE.XML"] "infotable.xml"
              eq_refl) as (Hm & Hnot & Hurl).
  split; [|split; [exact Hm|]].
  - apply Hnot. intros m [[= <-]|[]] _. reflexivity.
  - apply (Hurl (srv_same "{}") (loads_index [VStr "INFOTABLE.XML"]) soup_nothing
             "1067983" "000095012324001234" None world0
             (mkWorld 1 [Get (json_url "1067983" "000095012324001234") DEFAULT_UA;
                         Sleep 500])).
    reflexivity.
Defined.

(* ================================================================= *)
(** * Further properties of the code *)

(** ** The Transport: budget, success and failure *)

Section TransportBudget.

Variable srv : nat -> string -> Outcome.
Variables (url : string) (retries : nat) (sleep_s : Z) (user_agent : option string).

Local Abbreviation loop := (http_get_loop srv url retries sleep_s user_agent).
Local Abbreviation h := (sec_headers user_agent).

Lemma sleeps_cons_get (u a : string) (t : list Event) :
  sleeps (Get u a :: t) = sleeps t.
Proof. reflexivity. Qed.

Lemma sleeps_cons_sleep (ms : Z) (t : list Event) :
  sleeps (Sleep ms :: t) = S (sleeps t).
Proof. reflexivity. Qed.

Lemma http_get_loop_budget (attempts : list nat)
    (last_exc : option RequestException) (w : World) :
  exists more,
    trace (snd (loop attempts last_exc w)) = (trace w ++ more)%list
    /\ Forall (eq url) (urls_of more)
    /\ served (snd (loop attempts last_exc w)) = served w + length (urls_of more)
    /\ length (urls_of more) <= length attempts
    /\ sleeps more <= length (urls_of more).
Proof.
  revert last_exc w.
  induction attempts as [|attempt rest IH]; intros last_exc w.
  - exists []. simpl. rewrite app_nil_r. repeat split; auto.
  - rewrite http_get_loop_step.
    assert (Hnext : forall last ms,
               exists more,
                 trace (snd (loop rest last (sleep ms (sent url user_agent w))))
                 = (trace w ++ more)%list
                 /\ Forall (eq url) (urls_of more)
                 /\ served (snd (loop rest last (sleep ms (sent url user_agent w))))
                    = served w + length (urls_of more)
                 /\ length (urls_of more) <= S (length rest)
                 /\ sleeps more <= length (urls_of more)).
    { intros last ms.
      destruct (IH last (sleep ms (sent url user_agent w))) as (more & Ht & Hu & Hs & Hl & Hz).
      exists (Get url h :: Sleep ms :: more).
      rewrite Ht, Hs. simpl trace. simpl served.
      rewrite <- !app_assoc. simpl.
      rewrite sleeps_cons_get, sleeps_cons_sleep.
      repeat split; [now constructor | lia | lia | lia]. }
    assert (Hone : exists more,
               (trace w ++ [Get url h])%list = (trace w ++ more)%list
               /\ Forall (eq url) (urls_of more)
               /\ S (served w) = served w + length (urls_of more)
               /\ length (urls_of more) <= S (length rest)
               /\ sleeps more <= length (urls_of more)).
    { exists [Get url h]. simpl. repeat split; [now constructor|lia|lia|].
      unfold sleeps. simpl. lia. }
    cbv zeta. simpl length.
    destruct (srv (served w) url) as [resp|e].
    + destruct (is_throttled resp); [apply Hnext|].
      destruct (raise_for_status resp) as [e|].
      * destruct (attempt =? retries)%nat; [exact Hone|apply Hnext].
      * unfold polite_sleep. destruct (0 <? sleep_s)%Z; [|exact Hone].
        exists [Get url h; Sleep sleep_s]. simpl. rewrite <- app_assoc.
        repeat split; [now constructor|lia|lia|].
        unfold sleeps. simpl. lia.
    + destruct (attempt =? retries)%nat; [exact Hone|apply Hnext].
Qed.

Lemma http_get_loop_success (attempts : list nat)
    (last_exc : option RequestException) (w w' : World) (resp : Response) :
  loop attempts last_exc w = (Ok resp, w') ->
  is_throttled resp = false
  /\ raise_for_status resp = None
  /\ exists i before,
      i < length attempts
      /\ srv (served w + i) url = Responded resp
      /\ served w' = served w + S i
      /\ trace w'
         = (trace w ++ before
              ++ Get url h :: if (0 <? sleep_s)%Z then [Sleep sleep_s] else [])%list.
Proof.
  revert last_exc w.
  induction attempts as [|attempt rest IH]; intros last_exc w; [discriminate|].
  rewrite http_get_loop_step. cbv zeta.
  assert (Hnext : forall last ms,
             loop rest last (sleep ms (sent url user_agent w)) = (Ok resp, w') ->
             is_throttled resp = false
             /\ raise_for_status resp = None
             /\ exists i before,
                 i < length (attempt :: rest)
                 /\ srv (served w + i) url = Responded resp
                 /\ served w' = served w + S i
                 /\ trace w'
                    = (trace w ++ before
                         ++ Get url h
                         :: if (0 <? sleep_s)%Z then [Sleep sleep_s] else [])%list).
  { intros last ms Hrun.
    destruct (IH _ _ Hrun) as (Ht & Hr & i & before & Hi & Hsrv & Hserved & Htrace).
    split; [exact Ht|]. split; [exact Hr|].
    exists (S i), (Get url h :: Sleep ms :: before).
    simpl served in *. simpl trace in Htrace. simpl length.
    rewrite Nat.add_succ_r. split; [lia|]. split; [exact Hsrv|].
    split; [lia|]. rewrite Htrace, <- !app_assoc. reflexivity. }
  destruct (srv (served w) url) as [resp0|e] eqn:Hsrv.
  - destruct (is_throttled resp0) eqn:Hthr; [apply Hnext|].
    destruct (raise_for_status resp0) as [e|] eqn:Hraise.
    + destruct (attempt =? retries)%nat; [discriminate|apply Hnext].
    + intros [= <- <-]. split; [exact Hthr|]. split; [exact Hraise|].
      exists 0, []. simpl length. rewrite Nat.add_0_r.
      split; [lia|]. split; [exact Hsrv|].
      unfold polite_sleep, sleep, sent.
      destruct (0 <? sleep_s)%Z; simpl; split; try lia;
        now rewrite <- ?app_assoc.
  - destruct (attempt =? retries)%nat; [discriminate|apply Hnext].
Qed.

Lemma http_get_loop_failure (k attempt : nat)
    (last_exc : option RequestException) (w w' : World) (e : exn) :
  attempt + k = S retries ->
  loop (seq attempt k) last_exc w = (Raise e, w') ->
  served w' = served w + k
  /\ exists last,
      e = GetFailed url retries last
      /\ forall c, last = Some c ->
           last_exc = Some c
           \/ exists i, i < k /\ raised (srv (served w + i) url) = Some c.
Proof.
  revert attempt last_exc w.
  induction k as [|k IH]; intros attempt last_exc w Hk; simpl seq.
  - intros [= <- <-]. split; [lia|]. exists last_exc. split; [reflexivity|]. auto.
  - rewrite http_get_loop_step. cbv zeta.
    assert (Hnext : forall last ms,
               (forall c, last = Some c ->
                          last_exc = Some c
                          \/ raised (srv (served w) url) = Some c) ->
               loop (seq (S attempt) k) last (sleep ms (sent url user_agent w)) = (Raise e, w') ->
               served w' = served w + S k
               /\ exists last',
                   e = GetFailed url retries last'
                   /\ forall c, last' = Some c ->
                        last_exc = Some c
                        \/ exists i, i < S k
                                     /\ raised (srv (served w + i) url) = Some c).
    { intros last ms Hlast Hrun.
      destruct (IH (S attempt) last (sleep ms (sent url user_agent w)) ltac:(lia) Hrun)
        as (Hserved & last' & He & Hcause).
      simpl served in *. split; [lia|]. exists last'. split; [exact He|].
      intros c Hc. destruct (Hcause c Hc) as [Hl|(i & Hi & Hr)].
      - destruct (Hlast c Hl) as [H|H]; [now left|].
        right. exists 0. rewrite Nat.add_0_r. split; [lia|exact H].
      - right. exists (S i). rewrite Nat.add_succ_r. split; [lia|exact Hr]. }
    assert (Hstop : forall c0,
               raised (srv (served w) url) = Some c0 ->
               (if (attempt =? retries)%nat
                then (@Raise Response (GetFailed url retries (Some c0)), sent url user_agent w)
                else loop (seq (S attempt) k) (Some c0)
                       (sleep (1000 * Z.of_nat attempt) (sent url user_agent w)))
               = (Raise e, w') ->
               served w' = served w + S k
               /\ exists last',
                   e = GetFailed url retries last'
                   /\ forall c, last' = Some c ->
                        last_exc = Some c
                        \/ exists i, i < S k
                                     /\ raised (srv (served w + i) url) = Some c).
    { intros c0 Hc0. destruct (Nat.eqb_spec attempt retries) as [Heq|Hne].
      - intros [= <- <-]. simpl. split; [lia|].
        exists (Some c0). split; [reflexivity|].
        intros c [= <-]. right. exists 0. rewrite Nat.add_0_r.
        split; [lia|exact Hc0].
      - apply Hnext. intros c [= <-]. now right. }
    destruct (srv (served w) url) as [resp|c0] eqn:Hsrv.
    + destruct (is_throttled resp) eqn:Hthr.
      * apply Hnext. auto.
      * destruct (raise_for_status resp) as [c0|] eqn:Hraise; [|discriminate].
        apply Hstop. simpl. now rewrite Hthr.
    + apply Hstop. reflexivity.
Qed.

Lemma http_get_loop_throttled (k attempt : nat)
    (last_exc : option RequestException) (w : World) :
  (forall i, i < k ->
             exists resp, srv (served w + i) url = Responded resp
                          /\ is_throttled resp = true) ->
  loop (seq attempt k) last_exc w
  = (Raise (GetFailed url retries last_exc),
     mkWorld (served w + k)
       (trace w ++ throttled_trace url user_agent (seq attempt k))).
Proof.
  revert attempt w.
  induction k as [|k IH]; intros attempt w Hall; simpl seq.
  - simpl. rewrite app_nil_r, Nat.add_0_r. now destruct w.
  - rewrite http_get_loop_step. cbv zeta.
    destruct (Hall 0 ltac:(lia)) as (resp & Hsrv & Hthr).
    rewrite Nat.add_0_r in Hsrv. rewrite Hsrv, Hthr.
    rewrite IH.
    + simpl. rewrite <- !app_assoc, Nat.add_succ_r. reflexivity.
    + intros i Hi. destruct (Hall (S i) ltac:(lia)) as (r & Hr & Ht).
      exists r. simpl served. rewrite Nat.add_succ_r in Hr. now split.
Qed.

End TransportBudget.

Lemma http_get_footprint srv url retries sleep_s ua w :
  exists more,
    trace (snd (http_get srv url retries sleep_s ua w)) = (trace w ++ more)%list
    /\ Forall (eq url) (urls_of more)
    /\ served (snd (http_get srv url retries sleep_s ua w))
       = served w + length (urls_of more)
    /\ length (urls_of more) <= retries
    /\ sleeps more <= length (urls_of more).
Proof.
  unfold http_get.
  destruct (http_get_loop_budget srv url retries sleep_s ua (seq 1 retries) None w)
    as (more & H). exists more. now rewrite length_seq in H.
Qed.

(** X1: a call of [http_get] sends at most [retries] requests, all of them
    for the URL it was given, and sleeps at most once per request; the
    request counter advances by the number of requests sent. *)
Theorem http_get_budget :
  forall srv url retries sleep_s user_agent w,
  exists more,
    trace (snd (http_get srv url retries sleep_s user_agent w))
    = (trace w ++ more)%list
    /\ Forall (eq url) (urls_of more)
    /\ served (snd (http_get srv url retries sleep_s user_agent w))
       = served w + length (urls_of more)
    /\ length (urls_of more) <= retries
    /\ sleeps more <= length (urls_of more).
Proof.
  intros srv url retries sleep_s ua w. apply http_get_footprint.
Qed.

(** X2: a response that [http_get] returns is not throttled (429, 503) and
    has no 4xx or 5xx status; it is the answer to one of the first [retries]
    requests, the last one sent, and nothing follows that request in the
    trace but the polite delay, when [sleep_s] is positive. *)
Theorem http_get_returns_last_response :
  forall srv url retries sleep_s user_agent w w' resp,
    http_get srv url retries sleep_s user_agent w = (Ok resp, w') ->
    is_throttled resp = false
    /\ raise_for_status resp = None
    /\ exists i before,
        i < retries
        /\ srv (served w + i) url = Responded resp
        /\ served w' = served w + S i
        /\ trace w'
           = (trace w ++ before
                ++ Get url (sec_headers user_agent)
                :: if (0 <? sleep_s)%Z then [Sleep sleep_s] else [])%list.
Proof.
  intros srv url retries sleep_s ua w w' resp H.
  apply http_get_loop_success in H. now rewrite length_seq in H.
Qed.

Lemma http_get_returns_last_response_witness :
  is_throttled (mkResponse 200 "ok") = false
  /\ raise_for_status (mkResponse 200 "ok") = None
  /\ exists i before,
      i < 3
      /\ srv_503_503_ok (0 + i) "u" = Responded (mkResponse 200 "ok")
      /\ 3 = 0 + S i
      /\ [Get "u" DEFAULT_UA; Sleep 1500; Get "u" DEFAULT_UA; Sleep 3000;
          Get "u" DEFAULT_UA; Sleep 500]
         = ([] ++ before ++ Get "u" DEFAULT_UA :: [Sleep 500])%list.
Proof.
  apply (http_get_returns_last_response srv_503_503_ok "u" 3 500 None world0
           (mkWorld 3 [Get "u" DEFAULT_UA; Sleep 1500; Get "u" DEFAULT_UA;
                       Sleep 3000; Get "u" DEFAULT_UA; Sleep 500])
           (mkResponse 200 "ok")).
  reflexivity.
Defined.

Lemma http_get_failure_cause srv url retries sleep_s ua w w' e :
  http_get srv url retries sleep_s ua w = (Raise e, w') ->
  served w' = served w + retries
  /\ exists last,
      e = GetFailed url retries last
      /\ forall c, last = Some c ->
           exists i, i < retries /\ raised (srv (served w + i) url) = Some c.
Proof.
  intros H. unfold http_get in H.
  apply http_get_loop_failure in H; [|reflexivity].
  destruct H as (Hs & last & He & Hc).
  split; [exact Hs|]. exists last. split; [exact He|].
  intros c Hl. destruct (Hc c Hl) as [H|H]; [discriminate|exact H].
Qed.

(** X3: [http_get] fails only when all [retries] requests have been sent,
    and only with its own error; the cause the error carries, when it
    carries one, is what one of these requests raised (a network failure or
    the status error of a response). *)
Theorem http_get_fails_after_all_attempts :
  forall srv url retries sleep_s user_agent w w' e,
    http_get srv url retries sleep_s user_agent w = (Raise e, w') ->
    served w' = served w + retries
    /\ exists last,
        e = GetFailed url retries last
        /\ forall c, last = Some c ->
             exists i, i < retries /\ raised (srv (served w + i) url) = Some c.
Proof.
  intros srv url retries sleep_s ua w w' e. apply http_get_failure_cause.
Qed.

Lemma http_get_fails_after_all_attempts_witness :
  3 = 0 + 3
  /\ exists last,
      GetFailed "u" 3 (Some Timeout) = GetFailed "u" 3 last
      /\ forall c, last = Some c ->
           exists i, i < 3 /\ raised (srv_timeouts (0 + i) "u") = Some c.
Proof.
  apply (http_get_fails_after_all_attempts srv_timeouts "u" 3 500 None world0
           (mkWorld 3 [Get "u" DEFAULT_UA; Sleep 1000; Get "u" DEFAULT_UA;
                       Sleep 2000; Get "u" DEFAULT_UA])
           (GetFailed "u" 3 (Some Timeout))).
  reflexivity.
Defined.

(** X4: when every one of the [retries] requests is answered 429 or 503,
    [http_get] sleeps after each of them, also after the last, for
    min(10 s, 1.5 s x attempt), and then fails with an error that carries no
    cause. *)
Theorem http_get_throttled_throughout :
  forall srv url retries sleep_s user_agent w,
    (forall i, i < retries ->
               exists resp, srv (served w + i) url = Responded resp
                            /\ is_throttled resp = true) ->
    http_get srv url retries sleep_s user_agent w
    = (Raise (GetFailed url retries None),
       mkWorld (served w + retries)
         (trace w ++ throttled_trace url user_agent (seq 1 retries))).
Proof.
  intros srv url retries sleep_s ua w H. unfold http_get.
  now apply http_get_loop_throttled.
Qed.

Lemma http_get_throttled_throughout_witness :
  http_get (fun _ _ => Responded (mkResponse 429 "")) "u" 8 500 None world0
  = (Raise (GetFailed "u" 8 None),
     mkWorld 8 (throttled_trace "u" None (seq 1 8)))
  /\ filter is_sleep (throttled_trace "u" None (seq 1 8))
     = [Sleep 1500; Sleep 3000; Sleep 4500; Sleep 6000; Sleep 7500; Sleep 9000;
        Sleep 10000; Sleep 10000].
Proof.
  split; [|reflexivity].
  apply (http_get_throttled_throughout
           (fun _ _ => Responded (mkResponse 429 "")) "u" 8 500 None world0).
  intros i _. exists (mkResponse 429 ""). split; reflexivity.
Defined.

(* ================================================================= *)
(** ** The Directory Resolver: what it asks for and what it lists *)

Lemma mem_In (x : string) (xs : list string) : Py.mem x xs = true <-> In x xs.
Proof.
  unfold Py.mem. rewrite existsb_exists. split.
  - intros (y & Hy & He). apply String.eqb_eq in He. now subst.
  - intros H. exists x. split; [exact H|apply String.eqb_refl].
Qed.

Lemma mem_not_In (x : string) (xs : list string) : Py.mem x xs = false <-> ~ In x xs.
Proof.
  rewrite <- mem_In. destruct (Py.mem x xs); split; congruence.
Qed.

Lemma uniq_In (names seen : list string) (x : string) :
  In x (uniq seen names) <-> In x names /\ ~ In x seen.
Proof.
  revert seen. induction names as [|n names IH]; intros seen; simpl.
  - tauto.
  - destruct (Py.mem n seen) eqn:Hm.
    + apply mem_In in Hm. rewrite IH. split.
      * intros [H1 H2]. auto.
      * intros [[<-|H1] H2]; [contradiction|auto].
    + apply mem_not_In in Hm. simpl. rewrite IH. simpl. split.
      * intros [<-|[H1 H2]]; [auto|]. split; [auto|]. intros H. apply H2. auto.
      * intros [[<-|H1] H2]; [auto|].
        destruct (string_dec n x) as [->|Hne]; [auto|].
        right. split; [exact H1|]. intros [H|H]; [contradiction|auto].
Qed.

Lemma uniq_NoDup (names seen : list string) : NoDup (uniq seen names).
Proof.
  revert seen. induction names as [|n names IH]; intros seen; simpl.
  - constructor.
  - destruct (Py.mem n seen); [apply IH|].
    constructor; [|apply IH]. rewrite uniq_In. intros [_ H]. apply H. now left.
Qed.

Lemma uniq_fixed (names seen : list string) :
  NoDup names -> (forall x, In x names -> ~ In x seen) -> uniq seen names = names.
Proof.
  revert seen. induction names as [|n names IH]; intros seen Hnd Hdis; simpl.
  - reflexivity.
  - inversion Hnd as [|? ? Hn Hnd']; subst.
    assert (Hm : Py.mem n seen = false)
      by (apply mem_not_In, Hdis; now left).
    rewrite Hm. f_equal. apply IH; [exact Hnd'|].
    intros x Hx [<-|Hs]; [contradiction|]. apply (Hdis x); [now right|exact Hs].
Qed.

Lemma split_nonempty (sep : ascii) (s : string) : Py.split sep s <> [].
Proof.
  destruct s as [|c s]; simpl; [discriminate|].
  destruct (Ascii.eqb c sep); [discriminate|].
  destruct (Py.split sep s); discriminate.
Qed.

Lemma split_has_char (sep c : ascii) (s : string) :
  has_char c s = false ->
  forall x, In x (Py.split sep s) -> has_char c x = false.
Proof.
  induction s as [|a s IH]; simpl; intros H x Hx.
  - destruct Hx as [<-|[]]. reflexivity.
  - apply orb_false_iff in H as [Ha Hs]. specialize (IH Hs).
    destruct (Ascii.eqb a sep).
    + destruct Hx as [<-|Hx]; [reflexivity|now apply IH].
    + destruct (Py.split sep s) as [|p ps] eqn:E.
      * destruct Hx as [<-|[]]. simpl. now rewrite Ha.
      * destruct Hx as [<-|Hx].
        -- simpl. rewrite Ha. apply IH. now left.
        -- apply IH. now right.
Qed.

Lemma split_no_sep (sep : ascii) (s : string) :
  forall x, In x (Py.split sep s) -> has_char sep x = false.
Proof.
  induction s as [|a s IH]; simpl; intros x Hx.
  - destruct Hx as [<-|[]]. reflexivity.
  - destruct (Ascii.eqb a sep) eqn:Ea.
    + destruct Hx as [<-|Hx]; [reflexivity|now apply IH].
    + destruct (Py.split sep s) as [|p ps] eqn:E.
      * destruct Hx as [<-|[]]. simpl. now rewrite Ea.
      * destruct Hx as [<-|Hx].
        -- simpl. rewrite Ea. apply IH. now left.
        -- apply IH. now right.
Qed.

Lemma last_In {A} (l : list A) (d : A) : l <> [] -> In (last l d) l.
Proof.
  induction l as [|x l IH]; [congruence|]. intros _.
  destruct l as [|y l]; [now left|]. right. apply IH. discriminate.
Qed.

Lemma hd_In {A} (l : list A) (d : A) : l <> [] -> In (hd d l) l.
Proof. destruct l; [congruence|]. intros _. now left. Qed.

Lemma link_name_plain (href : string) :
  has_char "/" (link_name href) = false /\ has_char "?" (link_name href) = false.
Proof.
  unfold link_name.
  set (tail := last (Py.split "/" href) EmptyString).
  assert (Htail : has_char "/" tail = false).
  { apply (split_no_sep "/" href). apply last_In, split_nonempty. }
  assert (Hin : In (hd EmptyString (Py.split "?" tail)) (Py.split "?" tail))
    by apply hd_In, split_nonempty.
  split.
  - exact (split_has_char "?" "/" tail Htail _ Hin).
  - exact (split_no_sep "?" tail _ Hin).
Qed.

Lemma kept_spec (n : string) :
  kept n = true <-> n <> EmptyString /\ n <> "." /\ n <> "..".
Proof.
  unfold kept. rewrite andb_true_iff, !negb_true_iff, mem_not_In.
  rewrite String.eqb_neq. simpl. intuition congruence.
Qed.

(** X5: a listing read from an HTML page is never empty and lists each name
    once; its names are exactly the last path segments of the links of the
    page, cut at a query string, other than the empty name, [.] and [..];
    they hold neither a slash nor a question mark, and when they are distinct
    already they are listed in the order of the page. *)
Theorem html_listing_names :
  forall srv soup_hrefs url user_agent w w' listing,
    html_listing srv soup_hrefs url user_agent w = (Ok (Some listing), w') ->
    exists resp hrefs names,
      fetch srv url user_agent w = (Ok resp, w')
      /\ soup_hrefs (text resp) = Some hrefs
      /\ listing = listing_of_names names
      /\ names <> []
      /\ NoDup names
      /\ (forall n, In n names
                    <-> In n (map link_name hrefs)
                        /\ n <> EmptyString /\ n <> "." /\ n <> "..")
      /\ (forall n, In n names ->
                    has_char "/" n = false /\ has_char "?" n = false)
      /\ (NoDup (filter kept (map link_name hrefs)) ->
          names = filter kept (map link_name hrefs)).
Proof.
  intros srv soup_hrefs url ua w w' listing. unfold html_listing.
  destruct (fetch srv url ua w) as [[resp|e] w1]; [|discriminate].
  destruct (soup_hrefs (text resp)) as [hrefs|] eqn:Hsoup; [|discriminate].
  destruct (filter kept (map link_name hrefs)) as [|f files] eqn:Hfiles;
    [discriminate|].
  intros [= <- <-].
  assert (Hmem : forall n, In n (uniq [] (f :: files))
                           <-> In n (map link_name hrefs)
                               /\ n <> EmptyString /\ n <> "." /\ n <> "..").
  { intros n. rewrite uniq_In, <- Hfiles, filter_In, kept_spec. simpl. tauto. }
  exists resp, hrefs, (uniq [] (f :: files)).
  split; [reflexivity|]. split; [exact Hsoup|]. split; [reflexivity|].
  split; [simpl; discriminate|]. split; [apply uniq_NoDup|].
  split; [exact Hmem|]. split.
  - intros n Hn. apply Hmem in Hn as [Hn _].
    apply in_map_iff in Hn as (href & <- & _). apply link_name_plain.
  - rewrite Hfiles. intros Hnd. apply uniq_fixed; [exact Hnd|]. intros x _ [].
Qed.

Lemma html_listing_names_witness :
  exists resp hrefs names,
    fetch (srv_same "<html/>") "u" None world0
    = (Ok resp, mkWorld 1 [Get "u" DEFAULT_UA; Sleep 500])
    /\ soup_links ["/a/b/x.xml?v=1"; "../"; "x.xml"; "/a/b/y.txt"] (text resp)
       = Some hrefs
    /\ listing_of_names ["x.xml"; "y.txt"] = listing_of_names names
    /\ names <> []
    /\ NoDup names
    /\ (forall n, In n names
                  <-> In n (map link_name hrefs)
                      /\ n <> EmptyString /\ n <> "." /\ n <> "..")
    /\ (forall n, In n names ->
                  has_char "/" n = false /\ has_char "?" n = false)
    /\ (NoDup (filter kept (map link_name hrefs)) ->
        names = filter kept (map link_name hrefs)).
Proof.
  apply (html_listing_names (srv_same "<html/>")
           (soup_links ["/a/b/x.xml?v=1"; "../"; "x.xml"; "/a/b/y.txt"])
           "u" None world0).
  reflexivity.
Defined.

Lemma urls_of_app (a b : list Event) : urls_of (a ++ b) = (urls_of a ++ urls_of b)%list.
Proof. unfold urls_of. apply flat_map_app. Qed.

Lemma within_refl (allowed : string -> Prop) (w : World) : within allowed 0 w w.
Proof.
  exists []. simpl. rewrite app_nil_r, Nat.add_0_r. repeat split; auto.
Qed.

Lemma within_trans (allowed : string -> Prop) (n m : nat) (w1 w2 w3 : World) :
  within allowed n w1 w2 -> within allowed m w2 w3 -> within allowed (n + m) w1 w3.
Proof.
  intros (a & Ha & Hua & Hsa & Hla) (b & Hb & Hub & Hsb & Hlb).
  exists (a ++ b)%list. rewrite urls_of_app, length_app.
  split; [now rewrite Hb, Ha, app_assoc|].
  split; [apply Forall_app; now split|]. split; lia.
Qed.

Lemma within_weaken (allowed allowed' : string -> Prop) (n m : nat) (w w' : World) :
  (forall u, allowed u -> allowed' u) -> n <= m ->
  within allowed n w w' -> within allowed' m w w'.
Proof.
  intros Hincl Hle (a & Ha & Hua & Hsa & Hla). exists a.
  split; [exact Ha|]. split; [|split; [exact Hsa|lia]].
  rewrite Forall_forall in *. intros u Hu. apply Hincl, Hua, Hu.
Qed.

Lemma http_get_within (srv : nat -> string -> Outcome) (url : string)
    (retries : nat) (sleep_s : Z) (ua : option string) (w : World) :
  within (eq url) retries w (snd (http_get srv url retries sleep_s ua w)).
Proof.
  destruct (http_get_footprint srv url retries sleep_s ua w)
    as (more & Ht & Hu & Hs & Hl & _).
  exists more. repeat split; assumption.
Qed.

Lemma json_listing_within srv json_loads cik_dir nd ua w :
  within (eq (json_url cik_dir nd)) 3 w
    (snd (json_listing srv json_loads cik_dir nd ua w)).
Proof.
  pose proof (http_get_within srv (json_url cik_dir nd) default_retries
                default_sleep_s ua w) as H.
  unfold json_listing, fetch.
  now destruct (http_get _ _ _ _ _ _) as [[resp|e] w1].
Qed.

Lemma html_listing_within srv soup_hrefs url ua w :
  within (eq url) 3 w (snd (html_listing srv soup_hrefs url ua w)).
Proof.
  pose proof (http_get_within srv url default_retries default_sleep_s ua w) as H.
  unfold html_listing, fetch.
  now destruct (http_get _ _ _ _ _ _) as [[resp|e] w1].
Qed.

Lemma index_listing_within srv json_loads soup_hrefs cik_dir nd ua w :
  within (fun u => In u [json_url cik_dir nd; index_html_url cik_dir nd;
                         directory_url cik_dir nd])
    9 w
    (snd (index_listing_for_accession srv json_loads soup_hrefs cik_dir nd ua w)).
Proof.
  set (allowed := fun u => In u [json_url cik_dir nd; index_html_url cik_dir nd;
                                 directory_url cik_dir nd]).
  assert (Hj : within allowed 3 w (snd (json_listing srv json_loads cik_dir nd ua w))).
  { eapply within_weaken; [| |apply json_listing_within]; [|lia].
    intros u <-. now left. }
  unfold index_listing_for_accession, html_candidates.
  destruct (json_listing srv json_loads cik_dir nd ua w) as [[l|e] wj];
    cbn [snd] in *.
  { eapply within_weaken; [| |exact Hj]; [auto|lia]. }
  rewrite html_fallback_two. cbv zeta.
  assert (H1 : within allowed 3 wj
                 (snd (html_listing srv soup_hrefs (index_html_url cik_dir nd) ua wj))).
  { eapply within_weaken; [| |apply html_listing_within]; [|lia].
    intros u <-. right. now left. }
  set (r1 := html_listing srv soup_hrefs (index_html_url cik_dir nd) ua wj) in *.
  assert (H2 : within allowed 3 (snd r1)
                 (snd (html_listing srv soup_hrefs (directory_url cik_dir nd) ua
                         (snd r1)))).
  { eapply within_weaken; [| |apply html_listing_within]; [|lia].
    intros u <-. right. right. now left. }
  set (r2 := html_listing srv soup_hrefs (directory_url cik_dir nd) ua (snd r1)) in *.
  pose proof (within_trans _ _ _ _ _ _ Hj H1) as H12.
  pose proof (within_trans _ _ _ _ _ _ H12 H2) as H123.
  destruct (fst r1) as [[l1|]|e1]; cbn [snd];
    [eapply within_weaken; [| |exact H12]; [auto|lia]| |];
    destruct (fst r2) as [[l2|]|e2]; cbn [snd]; exact H123.
Qed.

(** X6: the resolver sends at most nine requests, and only for the JSON
    index, the index page and the directory page of the filing. *)
Theorem index_listing_requests :
  forall srv json_loads soup_hrefs cik_dir nd user_agent w,
    within (fun u => In u [json_url cik_dir nd; index_html_url cik_dir nd;
                           directory_url cik_dir nd])
      9 w
      (snd (index_listing_for_accession srv json_loads soup_hrefs
              cik_dir nd user_agent w)).
Proof.
  intros srv json_loads soup_hrefs cik_dir nd ua w. apply index_listing_within.
Qed.

Lemma replace_app (old : ascii) (new a b : string) :
  Py.replace old new (a ++ b) = Py.replace old new a ++ Py.replace old new b.
Proof.
  induction a as [|x a IH]; simpl; [reflexivity|].
  destruct (Ascii.eqb x old); rewrite IH; [now rewrite append_assoc|reflexivity].
Qed.

Lemma replace_absent (old : ascii) (new s : string) :
  has_char old s = false -> Py.replace old new s = s.
Proof.
  induction s as [|x s IH]; simpl; [reflexivity|].
  intros H. apply orb_false_iff in H as [Hx Hs]. now rewrite Hx, IH.
Qed.

Lemma replace_removes (old : ascii) (s : string) :
  has_char old (Py.replace old EmptyString s) = false.
Proof.
  induction s as [|x s IH]; simpl; [reflexivity|].
  destruct (Ascii.eqb x old) eqn:E; simpl; [exact IH|now rewrite E].
Qed.

(** X7: for an accession token of the shape [a-b-c], with ten characters
    before the first dash and two between the dashes, the resolver's index
    page is named after the token itself: cutting the dash-free form at 10
    and 12 and putting the dashes back gives the token again. *)
Theorem index_html_url_restores_accession :
  forall cik_dir a b c : string,
    String.length a = 10 -> String.length b = 2 ->
    has_char "-" a = false -> has_char "-" b = false -> has_char "-" c = false ->
    let accession := a ++ "-" ++ b ++ "-" ++ c in
    let nd := Py.replace "-" "" accession in
    nd = a ++ b ++ c
    /\ Py.take 10 nd ++ "-" ++ Py.slice 10 12 nd ++ "-" ++ Py.drop 12 nd = accession
    /\ index_html_url cik_dir nd
       = "https://sec.gov/Archives/edgar/data/" ++ cik_dir ++ "/" ++ nd ++ "/"
         ++ accession ++ "-index.html".
Proof.
  intros cik_dir a b c La Lb Ha Hb Hc accession nd.
  assert (Hnd : nd = a ++ b ++ c).
  { unfold nd, accession.
    rewrite !replace_app, (replace_absent _ _ a Ha), (replace_absent _ _ b Hb),
      (replace_absent _ _ c Hc). reflexivity. }
  assert (Htake : Py.take 10 nd = a) by (rewrite Hnd, <- La; apply take_app).
  assert (Hdrop : Py.drop 10 nd = b ++ c) by (rewrite Hnd, <- La; apply drop_app).
  assert (Hslice : Py.slice 10 12 nd = b).
  { unfold Py.slice. rewrite Hdrop. change (12 - 10) with 2.
    rewrite <- Lb. apply take_app. }
  assert (Hrest : Py.drop 12 nd = c).
  { rewrite Hnd, <- append_assoc.
    replace 12 with (String.length (a ++ b)); [apply drop_app|].
    rewrite PyFacts.length_append. lia. }
  assert (Hjoin : Py.take 10 nd ++ "-" ++ Py.slice 10 12 nd ++ "-" ++ Py.drop 12 nd
                  = accession)
    by (now rewrite Htake, Hslice, Hrest).
  split; [exact Hnd|]. split; [exact Hjoin|].
  unfold index_html_url. rewrite <- Hjoin.
  repeat (rewrite ?append_assoc; simpl). reflexivity.
Qed.

Lemma index_html_url_restores_accession_witness :
  index_html_url "1067983" (Py.replace "-" "" "0000950123-24-001234")
  = "https://sec.gov/Archives/edgar/data/1067983/000095012324001234/0000950123-24-001234-index.html".
Proof.
  apply (index_html_url_restores_accession "1067983" "0000950123" "24" "001234");
    reflexivity.
Defined.

(** X8: a JSON index that decodes to a dict without [directory], or whose
    [directory] is a dict without [item], is taken as an empty listing: the
    resolver returns it without asking for an HTML page, and the orchestrator
    passes to the next candidate without sending a request or recording an
    error. *)
Theorem json_index_missing_keys :
  forall srv json_loads soup_hrefs cik_dir nd user_agent w resp w1 entries,
    fetch srv (json_url cik_dir nd) user_agent w = (Ok resp, w1) ->
    json_loads (text resp) = Some (VDict entries) ->
    (lookup "directory" entries = None
     \/ exists d, lookup "directory" entries = Some (VDict d)
                  /\ lookup "item" d = None) ->
    index_listing_for_accession srv json_loads soup_hrefs cik_dir nd user_agent w
    = (Ok (listing_of []), w1)
    /\ try_candidate srv json_loads soup_hrefs cik_dir nd user_agent w
       = (Ok None, w1)
    /\ forall accession rest last_err,
        try_candidates srv json_loads soup_hrefs accession user_agent
          ((cik_dir, nd) :: rest) last_err w
        = try_candidates srv json_loads soup_hrefs accession user_agent
            rest last_err w1.
Proof.
  intros srv json_loads soup_hrefs cik_dir nd ua w resp w1 entries Hget Hj Hkeys.
  assert (Hl : listing_of_index (VDict entries) = Ok (listing_of [])).
  { unfold listing_of_index. simpl.
    destruct Hkeys as [->|(d & -> & Hd)]; simpl; [reflexivity|].
    now rewrite Hd. }
  assert (Hidx : index_listing_for_accession srv json_loads soup_hrefs
                   cik_dir nd ua w = (Ok (listing_of []), w1)).
  { unfold index_listing_for_accession, json_listing, response_json.
    rewrite Hget, Hj. cbn [bind]. now rewrite Hl. }
  assert (Htry : try_candidate srv json_loads soup_hrefs cik_dir nd ua w
                 = (Ok None, w1)).
  { unfold try_candidate. now rewrite Hidx. }
  split; [exact Hidx|]. split; [exact Htry|].
  intros accession rest last_err. simpl. now rewrite Htry.
Qed.

Lemma json_index_missing_keys_witness :
  fetch_information_table_xml (srv_same "{}") (fun _ => Some (VDict [])) soup_nothing
    "1067983" "0001067983-24-000001" None world0
  = (Raise (TableFailed "0001067983-24-000001" None),
     mkWorld 1 [Get (json_url "1067983" "000106798324000001") DEFAULT_UA; Sleep 500]).
Proof.
  unfold fetch_information_table_xml.
  change (candidates_of "1067983" "0001067983-24-000001")
    with (@Ok (list (string * string)) [("1067983", "000106798324000001")]).
  cbv iota beta.
  rewrite (proj2 (proj2 (json_index_missing_keys (srv_same "{}")
                            (fun _ => Some (VDict [])) soup_nothing
                            "1067983" "000106798324000001" None world0
                            (mkResponse 200 "{}")
                            (mkWorld 1 [Get (json_url "1067983" "000106798324000001")
                                          DEFAULT_UA; Sleep 500])
                            [] eq_refl eq_refl (or_introl eq_refl)))).
  reflexivity.
Defined.

(* ================================================================= *)
(** ** The Document Selector: what it can and cannot return *)

Lemma selectable_xml (n : string) : selectable n = true -> Py.endswith n ".xml" = true.
Proof.
  unfold selectable, is_canonical, is_other_xml, is_primary.
  destruct (Py.endswith n ".xml") eqn:E; [reflexivity|]. simpl.
  intros H. apply String.eqb_eq in H. subst n. discriminate E.
Qed.

Lemma select_none (files : list string) :
  select files = None <-> forall n, In n files -> Py.endswith n ".xml" = false.
Proof.
  unfold select. split.
  - destruct (find is_canonical files) eqn:H1; [discriminate|].
    destruct (find is_other_xml files) eqn:H2; [discriminate|].
    intros H3 n Hn.
    pose proof (find_none _ _ H2 n Hn) as Ho.
    pose proof (find_none _ _ H3 n Hn) as Hp.
    unfold is_other_xml, is_primary in *.
    destruct (Py.endswith n ".xml"); [|reflexivity].
    rewrite Hp in Ho. discriminate.
  - intros Hall.
    assert (Hno : forall p, (forall n, p n = true -> Py.endswith n ".xml" = true) ->
                            find p files = None).
    { intros p Hp. destruct (find p files) as [n|] eqn:E; [|reflexivity].
      apply find_some in E as [Hin Hn]. apply Hp in Hn.
      rewrite (Hall n Hin) in Hn. discriminate. }
    rewrite !Hno; [reflexivity| | |]; intros n Hn; apply selectable_xml;
      unfold selectable; rewrite Hn; now rewrite ?orb_true_r.
Qed.

(** X9: a file name the selector returns ends with [.xml] and has no capital
    letter, whatever the case of the listed names. *)
Theorem selected_name_is_lowercase_xml :
  forall (names : list value) (r : string),
    find_information_table_filename (listing_of names) = Ok (Some r) ->
    Py.endswith r ".xml" = true /\ Py.has_upper r = false.
Proof.
  intros names r H. unfold find_information_table_filename in H.
  rewrite lowered_names_listing_of in H.
  destruct (traverse lower_of names) as [files|] eqn:Hfiles; [|discriminate].
  simpl in H. injection H as H.
  destruct (select_sound files r H) as [Hin Hok].
  split; [now apply selectable_xml|].
  destruct (traverse_lower_origin names files Hfiles r Hin) as (m & _ & ->).
  apply PyFacts.has_upper_lower.
Qed.

Lemma selected_name_is_lowercase_xml_witness :
  Py.endswith "form13finfo.xml" ".xml" = true
  /\ Py.has_upper "form13finfo.xml" = false.
Proof.
  apply (selected_name_is_lowercase_xml
           [VStr "index.htm"; VStr "Form13FInfo.XML"; VStr "primary_doc.xml"]).
  reflexivity.
Defined.

(** X10: the selector answers not-found exactly when no listed name, in
    lower case, ends with [.xml]. *)
Theorem selector_not_found_iff_no_xml :
  forall names : list string,
    find_information_table_filename (listing_of_names names) = Ok None
    <-> forall n, In n names -> Py.endswith (Py.lower n) ".xml" = false.
Proof.
  intros names. rewrite selector_on_names. split.
  - intros [= H] n Hn. rewrite select_none in H. apply H. now apply in_map.
  - intros H. f_equal. apply select_none. intros n Hn.
    apply in_map_iff in Hn as (m & <- & Hm). now apply H.
Qed.

Lemma selector_not_found_iff_no_xml_witness :
  find_information_table_filename
    (listing_of_names ["index.htm"; "report.XML.bak"; "xml"])
  = Ok None.
Proof.
  apply (proj2 (selector_not_found_iff_no_xml
                  ["index.htm"; "report.XML.bak"; "xml"])).
  intros n [<-|[<-|[<-|[]]]]; reflexivity.
Defined.

(** X11: the selector does not see the case of the listed names: two
    listings whose names agree once lowered get the same answer. *)
Theorem selector_ignores_case :
  forall names1 names2 : list string,
    map Py.lower names1 = map Py.lower names2 ->
    find_information_table_filename (listing_of_names names1)
    = find_information_table_filename (listing_of_names names2).
Proof.
  intros names1 names2 H. now rewrite !selector_on_names, H.
Qed.

Lemma selector_ignores_case_witness :
  find_information_table_filename
    (listing_of_names ["Primary_Doc.XML"; "InfoTable.xml"])
  = find_information_table_filename
      (listing_of_names ["primary_doc.xml"; "INFOTABLE.XML"]).
Proof.
  apply (selector_ignores_case ["Primary_Doc.XML"; "InfoTable.xml"]
           ["primary_doc.xml"; "INFOTABLE.XML"]).
  reflexivity.
Defined.

Lemma traverse_lower_not_string (names : list value) :
  (exists v, In v names /\ forall s, v <> VStr s) ->
  traverse lower_of names = Raise AttributeError.
Proof.
  induction names as [|x names IH]; intros (v & Hin & Hv); [contradiction|].
  simpl. destruct x as [| | |s| |];
    try reflexivity.
  destruct Hin as [<-|Hin]; [now contradiction (Hv s)|].
  simpl. rewrite IH; [reflexivity|]. now exists v.
Qed.

(** X12: a listing in which the name of some file is not a string (a JSON
    index can carry a number or null there) makes the selector raise
    [AttributeError], whatever else is listed. *)
Theorem selector_raises_on_non_string_name :
  forall names : list value,
    (exists v, In v names /\ forall s, v <> VStr s) ->
    find_information_table_filename (listing_of names) = Raise AttributeError.
Proof.
  intros names H. unfold find_information_table_filename.
  now rewrite lowered_names_listing_of, (traverse_lower_not_string names H).
Qed.

Lemma selector_raises_on_non_string_name_witness :
  find_information_table_filename
    (listing_of [VStr "infotable.xml"; VNone])
  = Raise AttributeError.
Proof.
  apply (selector_raises_on_non_string_name [VStr "infotable.xml"; VNone]).
  exists VNone. split; [right; now left|discriminate].
Defined.

(** X13: [primary_doc.xml] is the answer only as a last resort: when the
    selector returns it, every listed name that ends with [.xml] in lower
    case is [primary_doc.xml] in lower case. *)
Theorem primary_doc_is_last_resort :
  forall names : list string,
    find_information_table_filename (listing_of_names names)
    = Ok (Some "primary_doc.xml") ->
    forall n, In n names -> Py.endswith (Py.lower n) ".xml" = true ->
              Py.lower n = "primary_doc.xml".
Proof.
  intros names H n Hn Hxml. rewrite selector_on_names in H.
  injection H as H. unfold select in H.
  destruct (find is_canonical (map Py.lower names)) as [c|] eqn:H1.
  { apply find_some in H1 as [_ H1]. injection H as ->. discriminate. }
  destruct (find is_other_xml (map Py.lower names)) as [o|] eqn:H2.
  { apply find_some in H2 as [_ H2]. injection H as ->. discriminate. }
  pose proof (find_none _ _ H2 (Py.lower n) (in_map _ _ _ Hn)) as Ho.
  unfold is_other_xml in Ho. rewrite Hxml in Ho. simpl in Ho.
  apply negb_false_iff, String.eqb_eq in Ho. exact Ho.
Qed.

Lemma primary_doc_is_last_resort_witness :
  Py.lower "Primary_Doc.xml" = "primary_doc.xml".
Proof.
  apply (primary_doc_is_last_resort ["index.htm"; "Primary_Doc.xml"]).
  - reflexivity.
  - right. now left.
  - reflexivity.
Defined.

(* ================================================================= *)
(** ** The Filing Locator: filters, order and missing keys *)

Lemma scan_13f_empty_month (entries : list (value * value * value)) :
  scan_13f (Some EmptyString) entries = scan_13f None entries.
Proof.
  induction entries as [|[[f a] d] entries IH]; simpl; [reflexivity|].
  now rewrite IH.
Qed.

(** X14: an empty period filter is no filter: for every filing history, of
    any shape, the locator answers as it does without a period. *)
Theorem empty_period_is_no_filter :
  forall submissions : value,
    latest_13f_accession submissions (Some EmptyString)
    = latest_13f_accession submissions None.
Proof.
  intros submissions. unfold latest_13f_accession.
  destruct (get submissions "filings" (VDict [])) as [filings|]; [|reflexivity].
  simpl. destruct (get filings "recent" (VDict [])) as [recent|]; [|reflexivity].
  simpl. destruct (get recent "form" (VList [])) as [forms|]; [|reflexivity].
  simpl. destruct (get recent "accessionNumber" (VList [])) as [accs|]; [|reflexivity].
  simpl. destruct (get recent "filingDate" (VList [])) as [dates|]; [|reflexivity].
  simpl. destruct (iter forms) as [fs|]; [|reflexivity].
  simpl. destruct (iter accs) as [acs|]; [|reflexivity].
  simpl. destruct (iter dates) as [ds|]; [|reflexivity].
  simpl. apply scan_13f_empty_month.
Qed.

(** X15: the first match wins: the entry the locator returns is a 13F-HR
    entry of the period asked for, and no entry before it in the arrays is
    one; the arrays are not sorted by date. *)
Theorem latest_13f_accession_first_match :
  forall (month : option string) (forms accs dates : list string) (r : value),
    latest_13f_accession (history forms accs dates) month = Ok (Some r) ->
    exists i f a d,
      nth_error forms i = Some f /\ nth_error accs i = Some a
      /\ nth_error dates i = Some d
      /\ matching month f d = true
      /\ r = filing (VStr a) (VStr d)
      /\ forall j f' d', j < i -> nth_error forms j = Some f' ->
           nth_error dates j = Some d' -> matching month f' d' = false.
Proof.
  intros month forms accs dates r H.
  rewrite latest_13f_accession_history in H.
  pose proof (scan_13f_strings month forms accs dates) as Hscan.
  now rewrite H in Hscan.
Qed.

Lemma latest_13f_accession_first_match_witness :
  exists i f a d,
    nth_error ["13F-HR"; "13F-HR"] i = Some f
    /\ nth_error ["OLD"; "NEW"] i = Some a
    /\ nth_error ["2019-02-14"; "2024-02-14"] i = Some d
    /\ matching None f d = true
    /\ filing (VStr "OLD") (VStr "2019-02-14") = filing (VStr a) (VStr d)
    /\ forall j f' d', j < i -> nth_error ["13F-HR"; "13F-HR"] j = Some f' ->
         nth_error ["2019-02-14"; "2024-02-14"] j = Some d' ->
         matching None f' d' = false.
Proof.
  apply (latest_13f_accession_first_match None ["13F-HR"; "13F-HR"]
           ["OLD"; "NEW"] ["2019-02-14"; "2024-02-14"]).
  reflexivity.
Defined.

(** X16: a filing history without [filings], or whose [filings] is a dict
    without [recent], gives not-found and no error; a history that is not a
    dict raises [AttributeError]. *)
Theorem latest_13f_accession_missing_keys :
  forall (month : option string),
    (forall entries,
        lookup "filings" entries = None ->
        latest_13f_accession (VDict entries) month = Ok None)
    /\ (forall entries filings,
           lookup "filings" entries = Some (VDict filings) ->
           lookup "recent" filings = None ->
           latest_13f_accession (VDict entries) month = Ok None)
    /\ (forall submissions,
           (forall entries, submissions <> VDict entries) ->
           latest_13f_accession submissions month = Raise AttributeError).
Proof.
  intros month. split; [|split].
  - intros entries H. unfold latest_13f_accession. simpl. now rewrite H.
  - intros entries filings H1 H2. unfold latest_13f_accession. simpl.
    rewrite H1. simpl. now rewrite H2.
  - intros submissions H. unfold latest_13f_accession.
    destruct submissions; try reflexivity. now contradiction (H entries).
Qed.

Lemma latest_13f_accession_missing_keys_witness :
  latest_13f_accession (VDict [("name", VStr "Example Capital")]) (Some "2024-02")
  = Ok None
  /\ latest_13f_accession (VDict [("filings", VDict [("files", VList [])])]) None
     = Ok None
  /\ latest_13f_accession (VList []) None = Raise AttributeError.
Proof.
  destruct (latest_13f_accession_missing_keys (Some "2024-02")) as (H1 & _ & _).
  destruct (latest_13f_accession_missing_keys None) as (_ & H2 & H3).
  split; [now apply H1|]. split.
  - now apply (H2 _ [("files", VList [])]).
  - apply H3. discriminate.
Defined.

(* ================================================================= *)
(** ** [int] and [str], and the identifiers of the orchestrator *)

Lemma digit_not_space (c : ascii) : is_digit c = true -> Py.is_space c = false.
Proof. destruct c as [[] [] [] [] [] [] [] []]; simpl; intros H; now try discriminate. Qed.

Lemma digit_not_c_space (c : ascii) : is_digit c = true -> Py.is_c_space c = false.
Proof. destruct c as [[] [] [] [] [] [] [] []]; simpl; intros H; now try discriminate. Qed.

Lemma digit_not_sign (c : ascii) :
  is_digit c = true ->
  Ascii.eqb c "-" = false /\ Ascii.eqb c "+" = false /\ Ascii.eqb c "_" = false
  /\ Ascii.eqb c "," = false.
Proof. destruct c as [[] [] [] [] [] [] [] []]; simpl; intros H; now try discriminate. Qed.

Lemma rstrip_digits (s : string) : all_digits s = true -> Py.rstrip s = s.
Proof.
  induction s as [|c s IH]; simpl; [reflexivity|].
  intros H. apply andb_true_iff in H as [Hc Hs]. rewrite (IH Hs).
  destruct s; [now rewrite (digit_not_space c Hc)|reflexivity].
Qed.

Lemma strip_digits (s : string) : all_digits s = true -> Py.strip s = s.
Proof.
  intros H. unfold Py.strip.
  replace (Py.lstrip s) with s; [now apply rstrip_digits|].
  destruct s as [|c s]; [reflexivity|]. simpl in *.
  apply andb_true_iff in H as [Hc _]. now rewrite (digit_not_space c Hc).
Qed.

Lemma strip_minus_digits (s : string) :
  all_digits s = true -> Py.strip (String "-" s) = String "-" s.
Proof.
  intros H. unfold Py.strip. simpl Py.lstrip. simpl. rewrite (rstrip_digits s H).
  now destruct s.
Qed.

Lemma rstrip_c_digits (s : string) : all_digits s = true -> Py.rstrip_c s = s.
Proof.
  induction s as [|c s IH]; simpl; [reflexivity|].
  intros H. apply andb_true_iff in H as [Hc Hs]. rewrite (IH Hs).
  destruct s; [now rewrite (digit_not_c_space c Hc)|reflexivity].
Qed.

Lemma strip_c_digits (s : string) :
  all_digits s = true -> Py.rstrip_c (Py.lstrip_c s) = s.
Proof.
  intros H.
  replace (Py.lstrip_c s) with s; [now apply rstrip_c_digits|].
  destruct s as [|c s]; [reflexivity|]. simpl in *.
  apply andb_true_iff in H as [Hc _]. now rewrite (digit_not_c_space c Hc).
Qed.

Lemma strip_c_minus_digits (s : string) :
  all_digits s = true ->
  Py.rstrip_c (Py.lstrip_c (String "-" s)) = String "-" s.
Proof.
  intros H. simpl Py.lstrip_c. simpl. rewrite (rstrip_c_digits s H).
  now destruct s.
Qed.

Lemma ndigits_all_digits (s : string) :
  all_digits s = true -> Py.ndigits s = String.length s.
Proof.
  induction s as [|c s IH]; simpl; [reflexivity|].
  intros H. apply andb_true_iff in H as [Hc Hs]. unfold is_digit in Hc.
  destruct (Py.digit_val c); [|discriminate]. now rewrite (IH Hs).
Qed.

Lemma ndigits_le_length (s : string) : Py.ndigits s <= String.length s.
Proof.
  induction s as [|c s IH]; simpl; [lia|]. destruct (Py.digit_val c); lia.
Qed.

Lemma max_str_digits_ge_10 : 10 <= Py.max_str_digits.
Proof. apply Nat.leb_le. reflexivity. Qed.

Lemma all_digits_uint (d : Decimal.uint) :
  all_digits (NilEmpty.string_of_uint d) = true.
Proof. induction d; simpl; auto. Qed.

Lemma all_digits_nilzero (d : Decimal.uint) :
  all_digits (NilZero.string_of_uint d) = true
  /\ NilZero.string_of_uint d <> EmptyString.
Proof.
  destruct d; simpl; (split; [try reflexivity; apply all_digits_uint|discriminate]).
Qed.

Lemma digits_step (c : ascii) (s : string) (acc v : Z) (b : bool) :
  Py.digit_val c = Some v -> Ascii.eqb c "_" = false ->
  Py.digits (String c s) acc b = Py.digits s (10 * acc + v) true.
Proof. intros Hv Hu. cbn [Py.digits]. now rewrite Hu, Hv. Qed.

Lemma digits_uint_acc (d : Decimal.uint) (acc : positive) :
  Py.digits (NilEmpty.string_of_uint d) (Zpos acc) true
  = Some (Zpos (Pos.of_uint_acc d acc)).
Proof.
  revert acc. induction d; intros acc;
    cbn [NilEmpty.string_of_uint Pos.of_uint_acc]; [reflexivity| | | | | | | | | |];
    (erewrite digits_step by reflexivity); rewrite <- IHd; f_equal;
    match goal with
    | |- context [Z.of_nat ?n] =>
        let v := eval vm_compute in (Z.of_nat n) in change (Z.of_nat n) with v
    end; lia.
Qed.

Lemma digits_uint (d : Decimal.uint) (b : bool) :
  b = true \/ d <> Decimal.Nil ->
  Py.digits (NilEmpty.string_of_uint d) 0 b = Some (Z.of_N (Pos.of_uint d)).
Proof.
  revert b. induction d; intros b Hb;
    cbn [NilEmpty.string_of_uint Pos.of_uint Z.of_N];
    try (erewrite digits_step by reflexivity; apply digits_uint_acc).
  - destruct Hb as [->|Hb]; [reflexivity|congruence].
  - erewrite digits_step by reflexivity. apply IHd. now left.
Qed.

Lemma digits_nilzero (d : Decimal.uint) :
  Py.digits (NilZero.string_of_uint d) 0 false = Some (Z.of_N (Pos.of_uint d)).
Proof.
  destruct d; try (apply digits_uint; right; discriminate). reflexivity.
Qed.

Lemma int_of_digits (s : string) :
  all_digits s = true -> s <> EmptyString ->
  String.length s <= Py.max_str_digits ->
  Py.int s = Py.digits s 0 false.
Proof.
  intros H Hne Hlen. unfold Py.int. rewrite (strip_c_digits s H).
  rewrite <- (ndigits_all_digits s H) in Hlen.
  destruct s as [|c s]; [congruence|]. pose proof H as H'. simpl in H'.
  apply andb_true_iff in H' as [Hc _].
  destruct (digit_not_sign c Hc) as (-> & -> & _). cbn [orb]. cbv zeta.
  destruct (Py.digits (String c s) 0 false); [|reflexivity].
  now destruct (Nat.ltb_spec Py.max_str_digits (Py.ndigits (String c s))); [lia|].
Qed.

Lemma ndigits_uint (d : Decimal.uint) :
  Py.ndigits (NilEmpty.string_of_uint d) = Decimal.nb_digits d.
Proof. induction d; simpl; congruence. Qed.

Lemma ndigits_nilzero (d : Decimal.uint) :
  d <> Decimal.Nil -> Py.ndigits (NilZero.string_of_uint d) = Decimal.nb_digits d.
Proof. destruct d; [congruence|..]; intros _; apply ndigits_uint. Qed.

(** [int] reads back what [str] writes, as long as [str] writes no more
    digits than the interpreter converts. *)
Lemma int_str (n : Z) :
  Py.ndigits (Py.str n) <= Py.max_str_digits -> Py.int (Py.str n) = Some n.
Proof.
  unfold Py.str. rewrite <- (DecimalZ.of_to n) at 3.
  destruct (Z.to_int n) as [d|d]; simpl NilZero.string_of_int; simpl Z.of_int;
    destruct (all_digits_nilzero d) as [Hd Hne]; intros Hcap.
  - rewrite (ndigits_all_digits _ Hd) in Hcap.
    rewrite (int_of_digits _ Hd Hne Hcap). apply digits_nilzero.
  - unfold Py.int. rewrite (strip_c_minus_digits _ Hd). cbn [Ascii.eqb orb].
    change (Py.ndigits (String "-" (NilZero.string_of_uint d)))
      with (Py.ndigits (NilZero.string_of_uint d)) in Hcap.
    simpl. rewrite digits_nilzero.
    now destruct (Nat.ltb_spec Py.max_str_digits
                    (Py.ndigits (NilZero.string_of_uint d))); [lia|].
Qed.

(** A literal that [digits] reads is the decimal numeral of its value, up to
    underscores. *)
Lemma digits_numeral (s : string) (acc v : Z) (b : bool) :
  Py.digits s acc b = Some v ->
  exists d : Decimal.uint,
    Decimal.nb_digits d = Py.ndigits s
    /\ (b = false -> d <> Decimal.Nil)
    /\ Py.digits (NilEmpty.string_of_uint d) acc true = Some v.
Proof.
  revert acc b. induction s as [|c s IH]; intros acc b; cbn [Py.digits Py.ndigits].
  - destruct b; [|discriminate]. intros [= <-]. exists Decimal.Nil.
    split; [reflexivity|]. split; [discriminate|reflexivity].
  - destruct (Ascii.eqb c "_") eqn:Hu.
    + apply Ascii.eqb_eq in Hu. subst c. cbn [Py.digit_val].
      destruct b; [|discriminate]. intros H.
      destruct (IH _ _ H) as (d & Hn & Hnil & Hd).
      exists d. split; [exact Hn|]. split; [discriminate|exact Hd].
    + destruct (Py.digit_val c) as [k|] eqn:Hk; [|discriminate]. intros H.
      destruct (IH _ _ H) as (d & Hn & _ & Hd).
      assert (Hc : exists d', Decimal.nb_digits d' = S (Decimal.nb_digits d)
                              /\ d' <> Decimal.Nil
                              /\ NilEmpty.string_of_uint d'
                                 = String c (NilEmpty.string_of_uint d)).
      { unfold Py.digit_val in Hk.
        destruct c as [[] [] [] [] [] [] [] []]; try discriminate Hk;
          first
            [ exists (Decimal.D0 d); split; [|split; [discriminate|]]; reflexivity
            | exists (Decimal.D1 d); split; [|split; [discriminate|]]; reflexivity
            | exists (Decimal.D2 d); split; [|split; [discriminate|]]; reflexivity
            | exists (Decimal.D3 d); split; [|split; [discriminate|]]; reflexivity
            | exists (Decimal.D4 d); split; [|split; [discriminate|]]; reflexivity
            | exists (Decimal.D5 d); split; [|split; [discriminate|]]; reflexivity
            | exists (Decimal.D6 d); split; [|split; [discriminate|]]; reflexivity
            | exists (Decimal.D7 d); split; [|split; [discriminate|]]; reflexivity
            | exists (Decimal.D8 d); split; [|split; [discriminate|]]; reflexivity
            | exists (Decimal.D9 d); split; [|split; [discriminate|]]; reflexivity ]. }
      destruct Hc as (d' & Hn' & Hnil' & Hs').
      exists d'. split; [congruence|]. split; [auto|].
      rewrite Hs'. now rewrite (digits_step c _ acc k true Hk Hu).
Qed.

Lemma str_of_N (m : N) : Py.str (Z.of_N m) = NilZero.string_of_uint (N.to_uint m).
Proof. now destruct m. Qed.

Lemma ndigits_str_opp (v : Z) : Py.ndigits (Py.str (- v)) = Py.ndigits (Py.str v).
Proof. now destruct v. Qed.

(** What [int] returns, [str] prints within the cap. *)
Lemma int_within_cap (s : string) (n : Z) :
  Py.int s = Some n -> Py.ndigits (Py.str n) <= Py.max_str_digits.
Proof.
  unfold Py.int. destruct (Py.rstrip_c (Py.lstrip_c s)) as [|c rest]; [discriminate|].
  cbv zeta.
  set (body := if Ascii.eqb c "-" || Ascii.eqb c "+" then rest else String c rest).
  destruct (Py.digits body 0 false) as [v|] eqn:Hv; [|discriminate].
  destruct (Nat.ltb_spec Py.max_str_digits (Py.ndigits body)) as [|Hcap];
    [discriminate|].
  intros [= <-].
  destruct (digits_numeral _ _ _ _ Hv) as (d & Hn & Hnil & Hd).
  specialize (Hnil eq_refl).
  rewrite (digits_uint d true (or_introl eq_refl)) in Hd. injection Hd as <-.
  assert (Hstr : Py.ndigits (Py.str (Z.of_N (Pos.of_uint d))) <= Py.max_str_digits).
  { rewrite str_of_N, DecimalPos.Unsigned.to_of.
    rewrite (ndigits_nilzero _ (DecimalFacts.unorm_nonnil d)).
    pose proof (DecimalFacts.nb_digits_unorm d Hnil). lia. }
  destruct (Ascii.eqb c "-"); [now rewrite ndigits_str_opp|exact Hstr].
Qed.

(** X17: the identifier the orchestrator puts in its candidates is a fixed
    point of its normalisation: [int] reads [str(int(cik))] back as the same
    number, so asked again with the normalised identifier the orchestrator
    builds the same candidate list. *)
Theorem candidates_of_normalised_identifier :
  forall (cik accession : string) (n : Z),
    Py.int cik = Some n ->
    Py.int (Py.str n) = Some n
    /\ candidates_of (Py.str n) accession = candidates_of cik accession.
Proof.
  intros cik accession n H.
  pose proof (int_str n (int_within_cap cik n H)) as Hn.
  split; [exact Hn|]. unfold candidates_of. now rewrite Hn, H.
Qed.

Lemma candidates_of_normalised_identifier_witness :
  Py.int (Py.str 1067983) = Some 1067983%Z
  /\ candidates_of (Py.str 1067983) "0000950123-24-001234"
     = candidates_of " +0_001_067_983 " "0000950123-24-001234".
Proof.
  apply (candidates_of_normalised_identifier " +0_001_067_983 "). reflexivity.
Defined.

Lemma digits_flag (c : ascii) (s : string) (acc : Z) (b : bool) :
  is_digit c = true ->
  Py.digits (String c s) acc b = Py.digits (String c s) acc true.
Proof.
  intros Hc. simpl. destruct (digit_not_sign c Hc) as (_ & _ & -> & _). reflexivity.
Qed.

Lemma digits_zeros (k : nat) (s : string) (b : bool) :
  Py.digits (Py.zeros k ++ s) 0 b
  = Py.digits s 0 (match k with O => b | S _ => true end).
Proof.
  revert b. induction k as [|k IH]; intros b; simpl; [reflexivity|].
  rewrite IH. now destruct k.
Qed.

Lemma all_digits_app (a b : string) :
  all_digits (a ++ b) = all_digits a && all_digits b.
Proof.
  induction a as [|c a IH]; simpl; [reflexivity|]. now rewrite IH, andb_assoc.
Qed.

Lemma all_digits_zeros (k : nat) : all_digits (Py.zeros k) = true.
Proof. induction k; simpl; auto. Qed.

Lemma int_pad_cik (cik : string) :
  all_digits cik = true -> cik <> EmptyString -> Py.int (pad_cik cik) = Py.int cik.
Proof.
  intros Hd Hne. unfold pad_cik, Py.zfill.
  destruct (Nat.leb_spec 10 (String.length cik)) as [|Hshort]; [reflexivity|].
  pose proof max_str_digits_ge_10 as Hmax.
  destruct cik as [|c rest]; [congruence|].
  pose proof Hd as Hd'. simpl in Hd'. apply andb_true_iff in Hd' as [Hc _].
  destruct (digit_not_sign c Hc) as (-> & -> & _). simpl orb. cbv iota.
  set (k := 10 - String.length (String c rest)).
  rewrite int_of_digits.
  - rewrite digits_zeros, (int_of_digits _ Hd Hne) by lia.
    destruct k; [reflexivity|]. symmetry. now apply digits_flag.
  - now rewrite all_digits_app, all_digits_zeros.
  - destruct (Py.zeros k); discriminate.
  - rewrite PyFacts.length_append, PyFacts.length_zeros. unfold k. lia.
Qed.

(** X18: an identifier of digits gives the same candidates with and without
    its zero padding: the orchestrator strips the zeros that [pad_cik]
    adds. *)
Theorem candidates_of_padded_identifier :
  forall cik accession : string,
    all_digits cik = true -> cik <> EmptyString ->
    candidates_of (pad_cik cik) accession = candidates_of cik accession.
Proof.
  intros cik accession Hd Hne. unfold candidates_of.
  now rewrite (int_pad_cik cik Hd Hne).
Qed.

Lemma candidates_of_padded_identifier_witness :
  candidates_of (pad_cik "1067983") "0000950123-24-001234"
  = candidates_of "1067983" "0000950123-24-001234".
Proof.
  apply (candidates_of_padded_identifier "1067983" "0000950123-24-001234");
    [reflexivity|discriminate].
Defined.

Lemma candidates_of_invariants
    (cik accession : string) (candidates : list (string * string)) :
  candidates_of cik accession = Ok candidates ->
  (length candidates = 1 \/ length candidates = 2)
  /\ NoDup (map fst candidates)
  /\ forall c, In c candidates ->
       (exists n, fst c = Py.str n)
       /\ snd c = Py.replace "-" "" accession
       /\ has_char "-" (snd c) = false.
Proof.
  unfold candidates_of.
  pose proof (replace_removes "-" accession) as Hnd.
  set (nd := Py.replace "-" "" accession) in *.
  destruct (Py.int cik) as [n|]; [|discriminate].
  assert (Hone : (length [(Py.str n, nd)] = 1 \/ length [(Py.str n, nd)] = 2)
                 /\ NoDup (map fst [(Py.str n, nd)])
                 /\ forall c, In c [(Py.str n, nd)] ->
                      (exists m, fst c = Py.str m) /\ snd c = nd
                      /\ has_char "-" (snd c) = false).
  { split; [now left|]. split; [repeat constructor; auto|].
    intros c [<-|[]]. simpl. split; [now exists n|]. auto. }
  destruct (Py.int (hd "" (Py.split "-" accession))) as [p|];
    [|intros [= <-]; exact Hone].
  destruct (Py.mem (Py.str p) (map fst [(Py.str n, nd)])) eqn:Hm; simpl negb;
    cbv iota; intros [= <-]; [exact Hone|].
  apply mem_not_In in Hm. simpl in Hm.
  split; [now right|]. split.
  - simpl. constructor; [|repeat constructor; auto].
    intros [H|[]]. apply Hm. left. congruence.
  - intros c [<-|[<-|[]]]; simpl; (split; [eexists; reflexivity|auto]).
Qed.

(** X19: the candidate list has one or two entries, their identifiers differ
    and are decimal numerals as [str] writes them, and every entry carries
    the accession with all its dashes removed. *)
Theorem candidates_of_shape :
  forall (cik accession : string) (candidates : list (string * string)),
    candidates_of cik accession = Ok candidates ->
    (length candidates = 1 \/ length candidates = 2)
    /\ NoDup (map fst candidates)
    /\ forall c, In c candidates ->
         (exists n, fst c = Py.str n)
         /\ snd c = Py.replace "-" "" accession
         /\ has_char "-" (snd c) = false.
Proof.
  intros cik accession candidates. apply candidates_of_invariants.
Qed.

Lemma candidates_of_shape_witness :
  (length [("1067983", "000095012324001234"); ("950123", "000095012324001234")] = 1
   \/ length [("1067983", "000095012324001234"); ("950123", "000095012324001234")] = 2)
  /\ NoDup (map fst [("1067983", "000095012324001234");
                     ("950123", "000095012324001234")])
  /\ forall c, In c [("1067983", "000095012324001234");
                     ("950123", "000095012324001234")] ->
       (exists n, fst c = Py.str n)
       /\ snd c = Py.replace "-" "" "0000950123-24-001234"
       /\ has_char "-" (snd c) = false.
Proof.
  apply (candidates_of_shape "1067983" "0000950123-24-001234"). reflexivity.
Defined.

(* ================================================================= *)
(** ** The Retrieval Orchestrator: errors and requests *)

Lemma lstrip_c_has_char (s : string) (c : ascii) :
  Py.is_c_space c = false -> has_char c s = true -> has_char c (Py.lstrip_c s) = true.
Proof.
  intros Hc. induction s as [|a s IH]; simpl; [discriminate|].
  destruct (Py.is_c_space a) eqn:Ha; [|now simpl].
  destruct (Ascii.eqb_spec a c) as [->|_]; [congruence|exact IH].
Qed.

Lemma rstrip_c_has_char (s : string) (c : ascii) :
  Py.is_c_space c = false -> has_char c s = true -> has_char c (Py.rstrip_c s) = true.
Proof.
  intros Hc. induction s as [|a s IH]; simpl; [discriminate|].
  destruct (Ascii.eqb_spec a c) as [->|_]; simpl.
  - intros _. destruct (Py.rstrip_c s); [rewrite Hc|]; simpl;
      now rewrite Ascii.eqb_refl.
  - intros H. specialize (IH H).
    destruct (Py.rstrip_c s); [discriminate|].
    simpl in *. now rewrite IH, orb_true_r.
Qed.

Lemma digits_rejects (s : string) (c : ascii) (acc : Z) (b : bool) :
  is_digit c = false -> Ascii.eqb c "_" = false -> has_char c s = true ->
  Py.digits s acc b = None.
Proof.
  intros Hd Hu. revert acc b. induction s as [|a s IH]; intros acc b;
    cbn [has_char Py.digits]; [discriminate|].
  destruct (Ascii.eqb_spec a c) as [->|_]; simpl.
  - intros _. rewrite Hu. unfold is_digit in Hd.
    now destruct (Py.digit_val c).
  - intros H. destruct (Ascii.eqb a "_"); [destruct b; [now apply IH|reflexivity]|].
    destruct (Py.digit_val a); [now apply IH|reflexivity].
Qed.

Lemma int_rejects (s : string) (c : ascii) :
  has_char c s = true -> is_literal_char c = false -> Py.int s = None.
Proof.
  unfold is_literal_char. intros Hin Hc.
  apply orb_false_iff in Hc as [Hc Hsp]. apply orb_false_iff in Hc as [Hc Hu].
  apply orb_false_iff in Hc as [Hc Hplus]. apply orb_false_iff in Hc as [Hd Hminus].
  pose proof (rstrip_c_has_char _ c Hsp (lstrip_c_has_char s c Hsp Hin)) as H.
  unfold Py.int. destruct (Py.rstrip_c (Py.lstrip_c s)) as [|a rest]; [reflexivity|].
  cbv zeta.
  assert (Hbody : has_char c (if Ascii.eqb a "-" || Ascii.eqb a "+"
                              then rest else String a rest) = true).
  { destruct (Ascii.eqb a "-" || Ascii.eqb a "+") eqn:Ha; [|exact H].
    simpl in H. destruct (Ascii.eqb_spec a c) as [->|_]; [|exact H].
    rewrite Hminus, Hplus in Ha. discriminate. }
  now rewrite (digits_rejects _ c 0 false Hd Hu Hbody).
Qed.

Lemma try_candidates_raises srv json_loads soup_hrefs accession ua cands last w e w' :
  try_candidates srv json_loads soup_hrefs accession ua cands last w = (Raise e, w') ->
  exists last', e = TableFailed accession last'.
Proof.
  revert last w. induction cands as [|[cik_dir nd] rest IH]; intros last w; simpl.
  - intros [= <- _]. now exists last.
  - destruct (try_candidate srv json_loads soup_hrefs cik_dir nd ua w)
      as [[[body|]|e0] w1]; [discriminate|apply IH|apply IH].
Qed.

(** X20: an investor identifier that [int] refuses makes the orchestrator
    raise [ValueError] before any request is sent; with an identifier that
    [int] accepts, the only error it raises is its own error for the
    accession: no failure of a candidate gets through. An identifier with a
    character other than a digit, a sign, an underscore or white space is
    refused. *)
Theorem fetch_information_table_xml_errors :
  forall srv json_loads soup_hrefs cik accession user_agent w,
    (Py.int cik = None ->
     fetch_information_table_xml srv json_loads soup_hrefs cik accession user_agent w
     = (Raise ValueError, w))
    /\ (forall n e w',
           Py.int cik = Some n ->
           fetch_information_table_xml srv json_loads soup_hrefs
             cik accession user_agent w = (Raise e, w') ->
           exists last, e = TableFailed accession last)
    /\ ((exists c, has_char c cik = true /\ is_literal_char c = false) ->
        Py.int cik = None).
Proof.
  intros srv json_loads soup_hrefs cik accession ua w.
  unfold fetch_information_table_xml. split; [|split].
  - intros H. unfold candidates_of. now rewrite H.
  - intros n e w' Hn. unfold candidates_of. rewrite Hn.
    destruct (Py.int (hd "" (Py.split "-" accession))) as [p|];
      [destruct (negb _)|]; apply try_candidates_raises.
  - intros (c & Hin & Hc). now apply (int_rejects cik c).
Qed.

Lemma fetch_information_table_xml_errors_witness :
  fetch_information_table_xml srv_absent loads_nothing soup_nothing
    "Berkshire" "0000950123-24-001234" None world0
  = (Raise ValueError, world0)
  /\ Py.int "10679x3" = None
  /\ exists last,
      TableFailed "0000950123-24-001234"
        (Some (ListingFailed "950123" "000095012324001234"))
      = TableFailed "0000950123-24-001234" last.
Proof.
  destruct (fetch_information_table_xml_errors srv_absent loads_nothing soup_nothing
              "Berkshire" "0000950123-24-001234" None world0) as (H1 & _ & _).
  destruct (fetch_information_table_xml_errors srv_absent loads_nothing soup_nothing
              "10679x3" "0000950123-24-001234" None world0) as (_ & _ & H3).
  destruct (fetch_information_table_xml_errors srv_absent loads_nothing soup_nothing
              "1067983" "0000950123-24-001234" None world0) as (_ & H2 & _).
  split; [now apply H1|]. split.
  - apply H3. exists "x"%char. split; reflexivity.
  - apply (H2 1067983%Z _
             (snd (fetch_information_table_xml srv_absent loads_nothing soup_nothing
                     "1067983" "0000950123-24-001234" None world0)));
      vm_compute; reflexivity.
Defined.

Lemma startswith_app (p s : string) : Py.startswith (p ++ s) p = true.
Proof.
  induction p as [|c p IH]; simpl; [now destruct s|].
  now rewrite Ascii.eqb_refl, IH.
Qed.

Lemma archive_urls (cik_dir nd fname : string) :
  in_archive (json_url cik_dir nd) /\ in_archive (index_html_url cik_dir nd)
  /\ in_archive (directory_url cik_dir nd)
  /\ in_archive (document_url cik_dir nd fname).
Proof. repeat split; apply startswith_app. Qed.

Lemma try_candidate_within srv json_loads soup_hrefs cik_dir nd ua w :
  within in_archive 12 w
    (snd (try_candidate srv json_loads soup_hrefs cik_dir nd ua w)).
Proof.
  assert (Hl : within in_archive 9 w
                 (snd (index_listing_for_accession srv json_loads soup_hrefs
                         cik_dir nd ua w))).
  { eapply within_weaken; [| |apply index_listing_within]; [|lia].
    intros u [<-|[<-|[<-|[]]]]; apply (archive_urls cik_dir nd EmptyString). }
  assert (Hmore : forall n w1, within in_archive n w w1 -> n <= 12 ->
                               within in_archive 12 w w1).
  { intros n w1 H Hn. eapply within_weaken; [| |exact H]; auto. }
  unfold try_candidate.
  destruct (index_listing_for_accession srv json_loads soup_hrefs cik_dir nd ua w)
    as [[listing|e] w1]; cbn [snd] in *; [|apply (Hmore 9); [exact Hl|lia]].
  destruct (find_information_table_filename listing) as [[[|c fname]|]|e];
    cbn [snd]; try (apply (Hmore 9); [exact Hl|lia]).
  assert (Hd : within in_archive 3 w1
                 (snd (fetch srv (document_url cik_dir nd (String c fname)) ua w1))).
  { eapply within_weaken; [| |apply http_get_within]; [|apply Nat.le_refl].
    intros u <-. apply archive_urls. }
  pose proof (within_trans _ _ _ _ _ _ Hl Hd) as H.
  destruct (fetch srv (document_url cik_dir nd (String c fname)) ua w1)
    as [[resp|e] w2]; exact H.
Qed.

Lemma try_candidates_within srv json_loads soup_hrefs accession ua cands last w :
  within in_archive (12 * length cands) w
    (snd (try_candidates srv json_loads soup_hrefs accession ua cands last w)).
Proof.
  revert last w. induction cands as [|[cik_dir nd] rest IH]; intros last w.
  - apply within_refl.
  - pose proof (try_candidate_within srv json_loads soup_hrefs cik_dir nd ua w) as H.
    simpl try_candidates. simpl length.
    destruct (try_candidate srv json_loads soup_hrefs cik_dir nd ua w)
      as [[[body|]|e] w1]; cbn [snd] in *.
    + eapply within_weaken; [| |exact H]; [auto|lia].
    + replace (12 * S (length rest)) with (12 + 12 * length rest) by lia.
      eapply within_trans; [exact H|apply IH].
    + replace (12 * S (length rest)) with (12 + 12 * length rest) by lia.
      eapply within_trans; [exact H|apply IH].
Qed.

(** X21: a call of the orchestrator sends at most 24 requests (two
    candidates, three URLs for a listing and one for the document, three
    attempts each), all of them under the archive's
    [https://sec.gov/Archives/edgar/data/]. *)
Theorem fetch_information_table_xml_requests :
  forall srv json_loads soup_hrefs cik accession user_agent w,
    within in_archive 24 w
      (snd (fetch_information_table_xml srv json_loads soup_hrefs
              cik accession user_agent w)).
Proof.
  intros srv json_loads soup_hrefs cik accession ua w.
  unfold fetch_information_table_xml.
  destruct (candidates_of cik accession) as [cands|e] eqn:Hc; cbn [snd].
  - destruct (candidates_of_invariants cik accession cands Hc) as (Hlen & _).
    eapply within_weaken; [| |apply try_candidates_within]; [auto|].
    destruct Hlen as [->| ->]; lia.
  - apply (within_weaken in_archive in_archive 0 24); [auto|lia|apply within_refl].
Qed.

(* ================================================================= *)
(** ** The Identity Resolver and the filing history *)

Lemma take_digits_spec (n : nat) (s : string) :
  all_digits (take_digits n s) = true /\ String.length (take_digits n s) <= n.
Proof.
  revert s. induction n as [|n IH]; intros s; simpl; [split; [reflexivity|lia]|].
  destruct s as [|c s]; [split; [reflexivity|simpl; lia]|].
  destruct (is_digit c) eqn:Hc; [|split; [reflexivity|simpl; lia]].
  destruct (IH s) as [Hd Hl]. simpl. rewrite Hc, Hd. split; [reflexivity|lia].
Qed.

Lemma search_cik_spec (text cik : string) :
  search_cik text = Some cik ->
  all_digits cik = true /\ 1 <= String.length cik <= 10.
Proof.
  induction text as [|c rest IH]; [discriminate|].
  cbn [search_cik].
  remember (Py.drop 4 (String c rest)) as t eqn:Ht. clear Ht.
  destruct (Py.startswith (String c rest) "CIK=" && _) eqn:Hm; [|exact IH].
  clear IH. intros H. apply andb_true_iff in Hm as [_ Hm].
  destruct t as [|d tail]; [discriminate|].
  destruct (take_digits_spec 10 (String d tail)) as [Hd Hl].
  assert (Hcik : cik = take_digits 10 (String d tail)) by congruence.
  rewrite Hcik. split; [exact Hd|]. split; [|exact Hl].
  cbn [take_digits]. rewrite Hm. cbn [String.length]. lia.
Qed.

Lemma digits_total (s : string) (acc : Z) (b : bool) :
  all_digits s = true -> (b = true \/ s <> EmptyString) ->
  exists n, Py.digits s acc b = Some n.
Proof.
  revert acc b. induction s as [|c s IH]; intros acc b Hd Hb.
  - destruct Hb as [->|Hb]; [now exists acc|congruence].
  - simpl in Hd. apply andb_true_iff in Hd as [Hc Hs].
    destruct (digit_not_sign c Hc) as (_ & _ & Hu & _).
    unfold is_digit in Hc. destruct (Py.digit_val c) as [v|] eqn:Hv; [|discriminate].
    rewrite (digits_step c s acc v b Hv Hu). apply IH; auto.
Qed.

(** X22: an identifier the resolver finds is one to ten decimal digits, so
    its padded form has exactly ten characters and the orchestrator's
    [int] accepts it. *)
Theorem resolved_identifier_is_well_formed :
  forall srv name user_agent w w' cik,
    resolve_cik_from_manager_name srv name user_agent w = (Ok (Some cik), w') ->
    all_digits cik = true
    /\ 1 <= String.length cik <= 10
    /\ String.length (pad_cik cik) = 10
    /\ exists n, Py.int cik = Some n.
Proof.
  intros srv name ua w w' cik. unfold resolve_cik_from_manager_name.
  destruct (fetch srv (browse_url name) ua w) as [[resp|e] w1]; [|discriminate].
  intros [= H _]. destruct (search_cik_spec _ _ H) as (Hd & Hlo & Hhi).
  split; [exact Hd|]. split; [lia|]. split.
  - unfold pad_cik. rewrite PyFacts.length_zfill. lia.
  - assert (Hne : cik <> EmptyString) by (intros ->; simpl in Hlo; lia).
    rewrite (int_of_digits cik Hd Hne)
      by (pose proof max_str_digits_ge_10; lia).
    apply digits_total; auto.
Qed.

Lemma resolved_identifier_is_well_formed_witness :
  all_digits "1067983" = true
  /\ 1 <= String.length "1067983" <= 10
  /\ String.length (pad_cik "1067983") = 10
  /\ exists n, Py.int "1067983" = Some n.
Proof.
  apply (resolved_identifier_is_well_formed
           (srv_same "<link href='browse-edgar?action=getcompany&CIK=1067983&type='/>")
           "Berkshire Hathaway" None world0
           (mkWorld 1 [Get (browse_url "Berkshire Hathaway") DEFAULT_UA; Sleep 500])).
  reflexivity.
Defined.

Lemma percent_chars (c x : ascii) :
  has_char x (percent c) = true -> is_unreserved x = true \/ x = "%"%char.
Proof.
  unfold percent. cbn [has_char]. rewrite !orb_true_iff, !Ascii.eqb_eq.
  intros [H|[H|[H|H]]]; [right; congruence|left|left|discriminate]; subst x.
  - destruct c as [[] [] [] [] [] [] [] []]; reflexivity.
  - destruct c as [[] [] [] [] [] [] [] []]; reflexivity.
Qed.

Lemma has_char_app (c : ascii) (a b : string) :
  has_char c (a ++ b) = has_char c a || has_char c b.
Proof.
  induction a as [|x a IH]; simpl; [reflexivity|]. now rewrite IH, orb_assoc.
Qed.

Lemma quote_chars (s : string) (x : ascii) :
  has_char x (quote s) = true -> is_unreserved x = true \/ x = "%"%char.
Proof.
  induction s as [|c s IH]; [simpl; discriminate|]. cbn [quote].
  destruct (is_unreserved c) eqn:Hc.
  - cbn [has_char]. rewrite orb_true_iff, Ascii.eqb_eq. intros [<-|H]; auto.
  - rewrite has_char_app, orb_true_iff. intros [H|H]; [|auto].
    now apply percent_chars in H.
Qed.

Lemma quote_unreserved (s : string) :
  (forall x, has_char x s = true -> is_unreserved x = true) -> quote s = s.
Proof.
  induction s as [|c s IH]; simpl; [reflexivity|]. intros H.
  rewrite (H c) by (now rewrite Ascii.eqb_refl).
  f_equal. apply IH. intros x Hx. apply H. now rewrite Hx, orb_true_r.
Qed.

(** X23: the name the Identity Resolver puts in its query is made of
    letters, digits, [_.-~/] and percent escapes only, so it holds no space
    and none of [& = ? #], whatever the name; a name made of unreserved
    characters goes in unchanged. *)
Theorem quoted_name_is_safe :
  forall name : string,
    (forall x, has_char x (quote name) = true ->
               is_unreserved x = true \/ x = "%"%char)
    /\ has_char " " (quote name) = false
    /\ has_char "&" (quote name) = false
    /\ has_char "=" (quote name) = false
    /\ has_char "?" (quote name) = false
    /\ has_char "#" (quote name) = false
    /\ ((forall x, has_char x name = true -> is_unreserved x = true) ->
        quote name = name).
Proof.
  intros name.
  assert (Hno : forall x, is_unreserved x = false -> x <> "%"%char ->
                          has_char x (quote name) = false).
  { intros x Hx Hp. destruct (has_char x (quote name)) eqn:E; [|reflexivity].
    destruct (quote_chars name x E) as [H|H]; congruence. }
  split; [apply quote_chars|].
  repeat (split; [apply Hno; [reflexivity|discriminate]|]).
  apply quote_unreserved.
Qed.

Lemma quoted_name_is_safe_witness : quote "BlackRock_Inc." = "BlackRock_Inc.".
Proof.
  apply (proj2 (proj2 (proj2 (proj2 (proj2 (proj2
           (quoted_name_is_safe "BlackRock_Inc."))))))).
  intros x H. cbn [has_char] in H. rewrite !orb_true_iff, !Ascii.eqb_eq in H.
  repeat (destruct H as [<-|H]; [reflexivity|]). discriminate.
Defined.

(** X24: [load_submissions_json] sends at most three requests, all for the
    history of the padded identifier; it raises nothing but the transport
    error and the decoding error; and it does the same for an identifier and
    for its padded form. *)
Theorem load_submissions_json_behaviour :
  forall srv json_loads cik user_agent w,
    within (eq ("https://data.sec.gov/submissions/CIK" ++ pad_cik cik ++ ".json"))
      3 w (snd (load_submissions_json srv json_loads cik user_agent w))
    /\ (forall e, fst (load_submissions_json srv json_loads cik user_agent w) = Raise e ->
                  e = JSONDecodeError
                  \/ exists last, e = GetFailed (submissions_url cik) 3 last)
    /\ load_submissions_json srv json_loads (pad_cik cik) user_agent w
       = load_submissions_json srv json_loads cik user_agent w.
Proof.
  intros srv json_loads cik ua w. split; [|split].
  - pose proof (http_get_within srv (submissions_url cik) default_retries
                  default_sleep_s ua w) as H.
    unfold load_submissions_json, fetch.
    now destruct (http_get _ _ _ _ _ _) as [[resp|e] w1].
  - intros e. unfold load_submissions_json, fetch.
    destruct (http_get srv (submissions_url cik) default_retries default_sleep_s ua w)
      as [[resp|e0] w1] eqn:Hget; cbn [fst].
    + unfold response_json. destruct (json_loads (text resp)); [discriminate|].
      intros [= <-]. now left.
    + intros [= <-]. right.
      destruct (http_get_failure_cause srv (submissions_url cik)
                  default_retries default_sleep_s ua w w1 e0 Hget)
        as (_ & last & -> & _). now exists last.
  - unfold load_submissions_json, submissions_url, pad_cik.
    rewrite (PyFacts.zfill_long 10 (Py.zfill 10 cik)); [reflexivity|].
    rewrite PyFacts.length_zfill. lia.
Qed.

(* ================================================================= *)
(** ** [as_int] of the decoder *)

(** X25: [as_int] reads back every integer that [str] writes in no more
    digits than the interpreter converts, negative ones included. *)
Theorem as_int_str :
  forall n : Z,
    Py.ndigits (Py.str n) <= Py.max_str_digits -> as_int (Py.str n) = n.
Proof.
  intros n Hcap. unfold as_int.
  assert (Hshape : exists s, all_digits s = true
                             /\ (Py.str n = s \/ Py.str n = String "-" s)).
  { unfold Py.str. destruct (Z.to_int n) as [d|d]; simpl NilZero.string_of_int;
      destruct (all_digits_nilzero d) as [Hd _];
      exists (NilZero.string_of_uint d); auto. }
  destruct Hshape as (s & Hd & Hs).
  assert (Hcomma : has_char "," s = false).
  { clear Hs. induction s as [|c s IH]; simpl; [reflexivity|].
    simpl in Hd. apply andb_true_iff in Hd as [Hc Hd].
    destruct (digit_not_sign c Hc) as (_ & _ & _ & ->). now apply IH. }
  assert (Hclean : Py.strip (Py.replace "," "" (Py.str n)) = Py.str n).
  { destruct Hs as [->| ->].
    - now rewrite (replace_absent _ _ _ Hcomma), (strip_digits _ Hd).
    - rewrite (replace_absent "," "" (String "-" s)) by exact Hcomma.
      now apply strip_minus_digits. }
  now rewrite Hclean, (int_str n Hcap).
Qed.

Lemma as_int_str_witness : as_int (Py.str (-15000)) = (-15000)%Z.
Proof.
  apply (as_int_str (-15000)). apply Nat.leb_le. reflexivity.
Defined.

(** X26: [as_int] does not see commas: a comma anywhere in the text changes
    nothing (thousands separators, but also a stray comma). *)
Theorem as_int_ignores_commas :
  forall a b : string, as_int (a ++ "," ++ b) = as_int (a ++ b).
Proof.
  intros a b. unfold as_int. now rewrite !replace_app.
Qed.

Lemma load_submissions_json_behaviour_witness :
  GetFailed (submissions_url "1067983") 3 (Some (StatusError 404)) = JSONDecodeError
  \/ exists last,
      GetFailed (submissions_url "1067983") 3 (Some (StatusError 404))
      = GetFailed (submissions_url "1067983") 3 last.
Proof.
  apply (proj1 (proj2 (load_submissions_json_behaviour
                         srv_absent loads_nothing "1067983" None world0))).
  reflexivity.
Defined.

(* ================================================================= *)
(** ** What the orchestrator returns *)

Lemma try_candidate_returns srv json_loads soup_hrefs cik_dir nd ua w w' body :
  try_candidate srv json_loads soup_hrefs cik_dir nd ua w = (Ok (Some body), w') ->
  exists fname resp,
    Py.endswith fname ".xml" = true
    /\ srv (pred (served w')) (document_url cik_dir nd fname) = Responded resp
    /\ text resp = body
    /\ is_throttled resp = false
    /\ raise_for_status resp = None.
Proof.
  unfold try_candidate.
  destruct (index_listing_for_accession srv json_loads soup_hrefs cik_dir nd ua w)
    as [[listing|e] w1]; [|discriminate].
  destruct (find_information_table_filename listing) as [[fname|]|e] eqn:Hsel;
    [|discriminate|discriminate].
  assert (Hxml : Py.endswith fname ".xml" = true).
  { unfold find_information_table_filename in Hsel.
    destruct (lowered_names listing) as [files|]; [|discriminate].
    simpl in Hsel. injection Hsel as Hsel.
    apply select_sound in Hsel as [_ Hok]. now apply selectable_xml. }
  destruct fname as [|c fname]; [discriminate|].
  destruct (fetch srv (document_url cik_dir nd (String c fname)) ua w1)
    as [[resp|e] w2] eqn:Hget; [|discriminate].
  intros [= <- <-]. unfold fetch in Hget.
  destruct (http_get_loop_success _ _ _ _ _ _ _ _ _ _ Hget)
    as (Hthr & Hraise & i & before & _ & Hsrv & Hserved & _).
  exists (String c fname), resp.
  rewrite Hserved, Nat.add_succ_r. simpl pred. auto.
Qed.

Lemma try_candidates_returns srv json_loads soup_hrefs accession ua cands last w w' body :
  try_candidates srv json_loads soup_hrefs accession ua cands last w = (Ok body, w') ->
  exists cik_dir nd fname resp,
    In (cik_dir, nd) cands
    /\ Py.endswith fname ".xml" = true
    /\ srv (pred (served w')) (document_url cik_dir nd fname) = Responded resp
    /\ text resp = body
    /\ is_throttled resp = false
    /\ raise_for_status resp = None.
Proof.
  revert last w. induction cands as [|[cik_dir nd] rest IH]; intros last w;
    [discriminate|]. simpl try_candidates.
  destruct (try_candidate srv json_loads soup_hrefs cik_dir nd ua w)
    as [[[body0|]|e] w1] eqn:Htry.
  - intros [= <- <-].
    destruct (try_candidate_returns _ _ _ _ _ _ _ _ _ Htry) as (fname & resp & H).
    exists cik_dir, nd, fname, resp. split; [now left|exact H].
  - intros H. destruct (IH _ _ H) as (cd & n & fname & resp & Hin & Hrest).
    exists cd, n, fname, resp. split; [now right|exact Hrest].
  - intros H. destruct (IH _ _ H) as (cd & n & fname & resp & Hin & Hrest).
    exists cd, n, fname, resp. split; [now right|exact Hrest].
Qed.

(** X27: the text the orchestrator returns is the body of the answer to the
    last request it sent; that request asked for a document whose name ends
    with [.xml], in the directory of one of the candidates, and the answer
    was neither throttled nor a 4xx or 5xx. *)
Theorem fetch_information_table_xml_returns_document :
  forall srv json_loads soup_hrefs cik accession user_agent w w' body,
    fetch_information_table_xml srv json_loads soup_hrefs cik accession user_agent w
    = (Ok body, w') ->
    exists candidates cik_dir nd fname resp,
      candidates_of cik accession = Ok candidates
      /\ In (cik_dir, nd) candidates
      /\ Py.endswith fname ".xml" = true
      /\ srv (pred (served w')) (document_url cik_dir nd fname) = Responded resp
      /\ text resp = body
      /\ is_throttled resp = false
      /\ raise_for_status resp = None.
Proof.
  intros srv json_loads soup_hrefs cik accession ua w w' body.
  unfold fetch_information_table_xml.
  destruct (candidates_of cik accession) as [cands|e]; [|discriminate].
  intros H. apply try_candidates_returns in H
    as (cik_dir & nd & fname & resp & Hin & Hrest).
  exists cands, cik_dir, nd, fname, resp. auto.
Qed.

Lemma fetch_information_table_xml_returns_document_witness :
  exists candidates cik_dir nd fname resp,
    candidates_of "1067983" "0000950123-24-001234" = Ok candidates
    /\ In (cik_dir, nd) candidates
    /\ Py.endswith fname ".xml" = true
    /\ srv_same "<informationTable/>" (pred 2) (document_url cik_dir nd fname)
       = Responded resp
    /\ text resp = "<informationTable/>"
    /\ is_throttled resp = false
    /\ raise_for_status resp = None.
Proof.
  apply (fetch_information_table_xml_returns_document
           (srv_same "<informationTable/>") (loads_index [VStr "InfoTable.XML"])
           soup_nothing "1067983" "0000950123-24-001234" None world0
           (mkWorld 2
              [Get (json_url "1067983" "000095012324001234") DEFAULT_UA; Sleep 500;
               Get (document_url "1067983" "000095012324001234" "infotable.xml")
                 DEFAULT_UA; Sleep 500])).
  reflexivity.
Defined.
